(** * NeighborLoop backend (session-2/app.py): a shallow embedding

    The Flask application of [session-2/app.py] is embedded as functions
    in a small state-and-exception monad over a [World] that holds the
    committed database tables, the transaction of the open connection,
    the storage bucket, the number of UUIDs drawn so far and a log of the
    calls made to the outside (SQL statements, uploads, model calls,
    prints).  The external collaborators (the driver, the storage
    service, the generative model, the embedding and distance functions
    of the database) are the members of the class [Services]. *)

From Stdlib Require Import String List ZArith Bool Lia Sorted.
From Stdlib Require Import Strings.Byte.
Import ListNotations.
Local Open Scope string_scope.
Local Open Scope list_scope.

Set Warnings "-register-all".

Section App.

(** Double precision numbers and pgvector vectors are kept abstract. *)
Variables (float vector : Type).

(** ** Python values *)

(** What [json.loads] and [request.json] produce. *)
Inductive pyval : Type :=
| PyNone
| PyBool (b : bool)
| PyInt (z : Z)
| PyFloat (f : float)
| PyStr (s : string)
| PyList (l : list pyval)
| PyDict (d : list (string * pyval)).

(** First binding of a key in a list of pairs with [str] keys (a dict,
    [request.form], [request.args], [request.files], [os.environ]). *)
Fixpoint lookup {A : Type} (d : list (string * A)) (key : string) : option A :=
  match d with
  | [] => None
  | (k, v) :: rest => if String.eqb k key then Some v else lookup rest key
  end.

(** [d.get(key)] and [d.get(key, default)] on a dict. *)
Definition dict_get (d : list (string * pyval)) (key : string) (default : pyval) : pyval :=
  match lookup d key with
  | Some v => v
  | None => default
  end.

(** [form.get(key, default)] on form fields. *)
Definition form_get (d : list (string * string)) (key default : string) : string :=
  match lookup d key with
  | Some v => v
  | None => default
  end.

(** [v == s] for a [str] literal [s]: only a [str] equals a [str]. *)
Definition py_eq_str (v : pyval) (s : string) : bool :=
  match v with
  | PyStr t => String.eqb t s
  | _ => false
  end.

(** [v in [s1, s2, ...]] for a list of [str] literals. *)
Definition py_in_strs (v : pyval) (l : list string) : bool :=
  existsb (py_eq_str v) l.

(** Truth value of an optional [str]: [None] and [''] are false. *)
Definition str_truthy (o : option string) : bool :=
  match o with
  | None => false
  | Some s => negb (String.eqb s EmptyString)
  end.

Definition py_of_text (o : option string) : pyval :=
  match o with
  | None => PyNone
  | Some s => PyStr s
  end.

(** ** Exceptions, rows, the world *)

(** An exception: its class and [str(e)]. *)
Record exn : Type := Exception { exn_class : string; exn_str : string }.

Inductive item_status : Type := available | matched.

Definition item_status_eqb (a b : item_status) : bool :=
  match a, b with
  | available, available => true
  | matched, matched => true
  | _, _ => false
  end.

(** The seven SQL statements of the application. *)
Inductive sql : Type :=
| SelectFeed | InsertItem | SearchItems
| InsertSwipe | SelectProvider | UpdateMatched | SelectMatches.

(** The calls of the database driver that can raise. *)
Inductive db_call : Type :=
| CallConnect                                       (* engine.connect() *)
| CallExecute (stmt : sql) (params : list pyval)    (* conn.execute(stmt, params) *)
| CallCommit.                                       (* conn.commit() *)

(** Calls that leave the process. *)
Inductive event : Type :=
| EvPrint (line : string)
| EvUpload (bucket_name : option string) (blob_name : string) (data : list byte)
| EvGenerate (model : string) (image : list byte) (prompt : string)
| EvConnect
| EvExecute (stmt : sql)
| EvCommit.

(** Modelled from the spec: the schema of the [items] table is not part
    of the source; the columns are those of section 3 of the
    specification (and of the INSERT of [list_item]); no constraint is
    enforced on them, a text column may hold NULL ([None]), and
    [created_at] is the logical time of the insertion. *)
Record Item : Type := mkItem {
  item_id : string;
  owner_id : string;
  provider_name : string;
  provider_phone : string;
  title : string;
  bio : option string;
  category : option string;
  image_url : string;
  status : item_status;
  item_vector : option vector;
  created_at : nat
}.

(** Modelled from the spec: the schema of the [swipes] table is not part
    of the source; the columns are those of the INSERT of
    [handle_swipe]; [item_id] is not required to name an existing item. *)
Record Swipe : Type := mkSwipe {
  s_swiper_id : string;
  s_item_id : option string;
  s_direction : option string;
  s_is_match : bool
}.

(** The two tables, and the number of items ever inserted. *)
Record Database : Type := mkDatabase {
  items : list Item;
  swipes : list Swipe;
  serial : nat
}.

Record World : Type := mkWorld {
  db : Database;                         (* committed state *)
  txn : option Database;                 (* view of the open connection *)
  bucket : list (string * list byte);    (* blobs of the storage bucket *)
  uuid_draws : nat;                      (* calls of uuid.uuid4() so far *)
  log : list event                       (* most recent first *)
}.

Definition set_db (d : Database) (w : World) : World :=
  mkWorld d (txn w) (bucket w) (uuid_draws w) (log w).
Definition set_txn (t : option Database) (w : World) : World :=
  mkWorld (db w) t (bucket w) (uuid_draws w) (log w).
Definition add_blob (name : string) (data : list byte) (w : World) : World :=
  mkWorld (db w) (txn w) ((name, data) :: bucket w) (uuid_draws w) (log w).
Definition draw_uuid (w : World) : World :=
  mkWorld (db w) (txn w) (bucket w) (S (uuid_draws w)) (log w).
Definition emit (e : event) (w : World) : World :=
  mkWorld (db w) (txn w) (bucket w) (uuid_draws w) (e :: log w).

(** ** The monad of handlers: state, and exceptions that keep the state *)

Definition Py (A : Type) : Type := World -> (exn + A) * World.

Definition ret {A : Type} (a : A) : Py A := fun w => (inr a, w).

Definition bind {A B : Type} (m : Py A) (k : A -> Py B) : Py B :=
  fun w => match m w with
           | (inl e, w') => (inl e, w')
           | (inr a, w') => k a w'
           end.

Definition raise {A : Type} (e : exn) : Py A := fun w => (inl e, w).

(** [try: m  except Exception as e: h e]. *)
Definition try_except {A : Type} (m : Py A) (h : exn -> Py A) : Py A :=
  fun w => match m w with
           | (inl e, w') => h e w'
           | (inr a, w') => (inr a, w')
           end.

(** [try: m  finally: cleanup]. *)
Definition finally {A : Type} (m : Py A) (cleanup : World -> World) : Py A :=
  fun w => match m w with
           | (r, w') => (r, cleanup w')
           end.

Definition modify (f : World -> World) : Py unit := fun w => (inr tt, f w).

Definition print (line : string) : Py unit := modify (emit (EvPrint line)).

Local Notation "x <- m ;; k" := (bind m (fun x => k))
  (at level 61, m at next level, right associativity).
Local Notation "m ;; k" := (bind m (fun _ => k))
  (at level 61, right associativity).

(** ** Process-wide handles and the collaborators *)

Record GenaiClient : Type := { client_api_key : option string }.
Inductive StorageClient : Type := StorageHandle.
Record Engine : Type := { engine_url : string; pool_pre_ping : bool }.

(** The module-level variables of [app.py]. *)
Record Globals : Type := mkGlobals {
  API_KEY : option string;
  DATABASE_URL : option string;
  BUCKET_NAME : option string;
  genai_client : option GenaiClient;
  storage_client : option StorageClient;
  engine : option Engine
}.

(** What the application calls and does not define. *)
Class Services : Type := {
  (* the Python runtime *)
  float_nonzero : float -> bool;              (* bool(x) of a float *)
  py_round : float -> nat -> float;           (* round(x, ndigits) *)
  uuid4_str : nat -> string;                  (* str(uuid.uuid4()), n-th draw *)
  format_exc : exn -> string;                 (* traceback.format_exc() *)
  json_loads : string -> exn + pyval;
  (* construction of the clients: [None] when it succeeds *)
  genai_Client_error : option string -> option exn;
  storage_Client_error : option exn;
  create_engine_error : string -> option exn;
  (* the storage service *)
  upload_error : option string -> string -> list byte -> option exn;
  public_url : option string -> string -> string;
  (* the generative model: [response.text] *)
  generate_content : string -> list byte -> string -> exn + string;
  (* the database and its extensions *)
  adapt_other : pyval -> exn + option string; (* binding of a value that is neither None nor str:
                                                 its text, or the exception of the driver *)
  db_error : db_call -> option exn;           (* the exception a call of the driver raises,
                                                 [None] when it succeeds *)
  new_item_id : nat -> string;                (* default of items.item_id *)
  embedding : string -> string -> vector;     (* embedding(model, text)::vector *)
  cosine_distance : vector -> vector -> float;  (* <=> *)
  float_leb : float -> float -> bool;         (* order of ORDER BY on double precision *)
  one_minus : float -> float;                 (* 1 - x *)
  ai_if : option string -> string -> bool;    (* ai.if(prompt, model_id), NULL counted false *)
  (* the template engine: the exception of render_template(template, items=...) *)
  render_error : string -> pyval -> option exn
}.

Context {svc : Services}.

(** [bool(v)]. *)
Definition py_truthy (v : pyval) : bool :=
  match v with
  | PyNone => false
  | PyBool b => b
  | PyInt z => negb (Z.eqb z 0)
  | PyFloat f => float_nonzero f
  | PyStr s => negb (String.eqb s EmptyString)
  | PyList l => match l with [] => false | _ :: _ => true end
  | PyDict d => match d with [] => false | _ :: _ => true end
  end.

(** [str(uuid.uuid4())]. *)
Definition uuid4 : Py string :=
  fun w => (inr (uuid4_str (uuid_draws w)), draw_uuid w).

(** [type(v).__name__]. *)
Definition py_type_name (v : pyval) : string :=
  match v with
  | PyNone => "NoneType"
  | PyBool _ => "bool"
  | PyInt _ => "int"
  | PyFloat _ => "float"
  | PyStr _ => "str"
  | PyList _ => "list"
  | PyDict _ => "dict"
  end.

(** The exception of [v.attr] when [v] has no such attribute. *)
Definition no_attribute (v : pyval) (attr : string) : exn :=
  Exception "AttributeError"
    (String.concat EmptyString
       ["'"; py_type_name v; "' object has no attribute '"; attr; "'"]).

(** [p.get(key, default)] on any value: only a dict has [get]. *)
Definition py_get (p : pyval) (key : string) (default : pyval) : Py pyval :=
  match p with
  | PyDict d => ret (dict_get d key default)
  | _ => raise (no_attribute p "get")
  end.

(** ** The database: bound parameters and the seven statements *)

(** The text the database receives for a bound Python value ([None] is
    NULL), or the exception of the driver that cannot bind it. *)
Definition sql_text (v : pyval) : exn + option string :=
  match v with
  | PyNone => inr None
  | PyStr s => inr (Some s)
  | _ => adapt_other v
  end.

(** SQL [a || b]: NULL if either side is NULL. *)
Definition sql_concat (a b : option string) : option string :=
  match a, b with
  | Some x, Some y => Some (String.append x y)
  | _, _ => None
  end.

(** [WHERE item_id = :id]. *)
Definition id_matches (id : pyval) (it : Item) : bool :=
  match sql_text id with
  | inr (Some s) => String.eqb (item_id it) s
  | _ => false
  end.

Definition set_status (st : item_status) (it : Item) : Item :=
  mkItem (item_id it) (owner_id it) (provider_name it) (provider_phone it)
         (title it) (bio it) (category it) (image_url it) st
         (item_vector it) (created_at it).

(** Insertion sort, for ORDER BY. *)
Fixpoint insert_by {A : Type} (leb : A -> A -> bool) (x : A) (l : list A) : list A :=
  match l with
  | [] => [x]
  | y :: rest => if leb x y then x :: l else y :: insert_by leb x rest
  end.

Definition order_by {A : Type} (leb : A -> A -> bool) (l : list A) : list A :=
  fold_right (insert_by leb) [] l.

(** SELECT item_id, title, bio, category, image_url FROM items
    WHERE status = 'available' ORDER BY created_at DESC LIMIT 20 *)
Definition select_feed (d : Database) : list Item * Database :=
  (firstn 20
     (order_by (fun a b => Nat.leb (created_at b) (created_at a))
        (filter (fun it => item_status_eqb (status it) available) (items d))),
   d).

(** INSERT INTO items (...) VALUES (:owner, :name, :phone, :title, :bio,
    :cat, :url, 'available',
    embedding('text-embedding-005', :title || ' ' || :bio)::vector)
    RETURNING item_id *)
Definition insert_item (owner name phone ttl : string) (b cat : pyval) (url : string)
    (d : Database) : exn + list string * Database :=
  match sql_text b with
  | inl e => inl e
  | inr bio_text =>
      match sql_text cat with
      | inl e => inl e
      | inr category_text =>
          let id := new_item_id (serial d) in
          let row :=
            mkItem id owner name phone ttl bio_text category_text url available
              (option_map (embedding "text-embedding-005")
                 (sql_concat (sql_concat (Some ttl) (Some " ")) bio_text))
              (serial d) in
          inr ([id], mkDatabase (items d ++ [row]) (swipes d) (S (serial d)))
      end
  end.

(** The double-quote character. *)
Definition dquote : string := String (Ascii.ascii_of_nat 34) EmptyString.

(** The prompt of the relevance predicate of the search. *)
Definition relevance_prompt (b : option string) (query : string) : option string :=
  sql_concat
    (sql_concat
       (sql_concat
          (sql_concat (Some (String.append "Does this text: " dquote)) b)
          (Some (String.append dquote (String.append " match the user request: " dquote))))
       (Some query))
    (Some (String.append dquote (String.append ", at least 60%? " (String.append dquote " ")))).

(** Rows that pass the WHERE clause of the search, with their distance to
    the embedding of the query. *)
Definition search_candidates (query : string) (d : Database) : list (Item * float) :=
  let qv := embedding "text-embedding-005" query in
  flat_map
    (fun it =>
       match item_vector it with
       | Some v =>
           if item_status_eqb (status it) available
              && ai_if (relevance_prompt (bio it) query) "gemini-3-flash-preview"
           then [(it, cosine_distance v qv)]
           else []
       | None => []
       end)
    (items d).

(** SELECT item_id, title, bio, category, image_url,
           1 - (item_vector <=> embedding(...)) as score
    FROM items WHERE status = 'available' AND item_vector IS NOT NULL
      and ai.if(...)
    ORDER BY item_vector <=> embedding(...) LIMIT 5.
    A result row is the item and its score. *)
Definition select_search (query : string) (d : Database) : list (Item * float) * Database :=
  (map (fun r => (fst r, one_minus (snd r)))
     (firstn 5
        (order_by (fun a b => float_leb (snd a) (snd b))
           (search_candidates query d))),
   d).

(** INSERT INTO swipes (swiper_id, item_id, direction, is_match)
    VALUES (:swiper, :item, :dir, :match) *)
Definition insert_swipe (swiper : string) (item dir : pyval) (is_match : bool)
    (d : Database) : exn + unit * Database :=
  match sql_text item with
  | inl e => inl e
  | inr item_text =>
      match sql_text dir with
      | inl e => inl e
      | inr dir_text =>
          inr (tt, mkDatabase (items d)
                     (swipes d ++ [mkSwipe swiper item_text dir_text is_match])
                     (serial d))
      end
  end.

(** SELECT provider_name, provider_phone FROM items WHERE item_id = :id *)
Definition select_provider (id : pyval) (d : Database)
    : exn + list (string * string) * Database :=
  match sql_text id with
  | inl e => inl e
  | inr _ =>
      inr (map (fun it => (provider_name it, provider_phone it))
             (filter (id_matches id) (items d)),
           d)
  end.

(** UPDATE items SET status = 'matched' WHERE item_id = :id *)
Definition update_matched (id : pyval) (d : Database) : exn + unit * Database :=
  match sql_text id with
  | inl e => inl e
  | inr _ =>
      inr (tt, mkDatabase
                 (map (fun it => if id_matches id it then set_status matched it else it)
                    (items d))
                 (swipes d) (serial d))
  end.

(** SELECT s.item_id, i.title, i.image_url, i.provider_name, i.provider_phone
    FROM swipes s JOIN items i ON s.item_id = i.item_id
    WHERE s.swiper_id = :swiper AND s.is_match = true AND i.status = 'matched' *)
Definition select_matches (swiper : string) (d : Database) : list (Swipe * Item) * Database :=
  (flat_map
     (fun s =>
        if String.eqb (s_swiper_id s) swiper && s_is_match s
        then map (fun it => (s, it))
               (filter (fun it =>
                          match s_item_id s with
                          | Some i => String.eqb i (item_id it)
                          | None => false
                          end && item_status_eqb (status it) matched)
                  (items d))
        else [])
     (swipes d),
   d).

(** ** The connection *)

Definition closed_connection : exn :=
  Exception "ResourceClosedError" "This Connection is closed".

(** [engine.connect()]: a transaction on the committed state, or the
    exception of a database that cannot be reached. *)
Definition engine_connect (e : Engine) : Py unit :=
  fun w =>
    match db_error CallConnect with
    | Some err => (inl err, emit EvConnect w)
    | None => (inr tt, emit EvConnect (set_txn (Some (db w)) w))
    end.

(** [with engine.connect() as conn: body]; leaving the block closes the
    connection, which drops what was not committed. *)
Definition with_connect {A : Type} (e : Engine) (body : Py A) : Py A :=
  engine_connect e ;; finally body (set_txn None).

(** A statement without a parameter that the driver could refuse. *)
Definition statement {A : Type} (run : Database -> A * Database) (d : Database)
    : exn + A * Database :=
  inr (run d).

(** [conn.execute(stmt, params)]: the parameters are bound, which raises
    when the driver cannot adapt one of them; the statement is sent, which
    raises when the database or a function it calls fails; its effect
    stays in the transaction. *)
Definition conn_execute {A : Type} (stmt : sql) (params : list pyval)
    (run : Database -> exn + A * Database) : Py A :=
  fun w =>
    match txn w with
    | None => (inl closed_connection, w)
    | Some t =>
        match run t with
        | inl e => (inl e, w)
        | inr (a, t') =>
            match db_error (CallExecute stmt params) with
            | Some e => (inl e, emit (EvExecute stmt) w)
            | None => (inr a, emit (EvExecute stmt) (set_txn (Some t') w))
            end
        end
    end.

(** [conn.commit()]. *)
Definition conn_commit : Py unit :=
  fun w =>
    match txn w with
    | None => (inl closed_connection, w)
    | Some t =>
        match db_error CallCommit with
        | Some e => (inl e, emit EvCommit w)
        | None => (inr tt, emit EvCommit (set_db t w))
        end
    end.

(** [result.fetchone()]. *)
Definition fetchone {A : Type} (rows : list A) : option A := hd_error rows.

(** [row[0]] of the row of [fetchone()], which is [None] without a row. *)
Definition first_column {A : Type} (row : option A) : Py A :=
  match row with
  | Some a => ret a
  | None => raise (Exception "TypeError" "'NoneType' object is not subscriptable")
  end.

(** ** Requests and responses *)

Record FileStorage : Type := { filename : string; content : list byte }.

(** [flask.request]: the parts the handlers read.  [json] is the value
    of [request.json]: any JSON value, or the exception that reading it
    raises (no JSON body). *)
Record Request : Type := mkRequest {
  files : list (string * FileStorage);
  form : list (string * string);
  args : list (string * string);
  json : exn + pyval
}.

Inductive body : Type :=
| Json (v : pyval)                              (* jsonify(v) *)
| Html (template : string) (context : pyval).   (* render_template(template, items=context) *)

Record Response : Type := mkResponse { status_code : nat; payload : body }.

Definition jsonify (code : nat) (v : pyval) : Response := mkResponse code (Json v).

Definition engine_not_initialized : Response :=
  jsonify 500 (PyDict [("error", PyStr "Database engine not initialized.")]).

(** [jsonify({"error": msg, "details": str(e), "traceback": traceback.format_exc()})]. *)
Definition error_report (msg : string) (e : exn) : pyval :=
  PyDict [("error", PyStr msg); ("details", PyStr (exn_str e));
          ("traceback", PyStr (format_exc e))].

(** A raising or returning call of a collaborator. *)
Definition lift {A : Type} (r : exn + A) : Py A :=
  match r with
  | inl e => raise e
  | inr a => ret a
  end.

(** ** upload_to_gcs *)

(** The name of the blob of an upload: f"items/{uuid.uuid4()}-{filename}". *)
Definition blob_name_of (u fname : string) : string :=
  String.append "items/" (String.append u (String.append "-" fname)).

Definition upload_to_gcs (g : Globals) (file_bytes : list byte) (fname : string) : Py string :=
  match storage_client g with
  | None => raise (Exception "AttributeError" "'NoneType' object has no attribute 'bucket'")
  | Some _ =>
      u <- uuid4 ;;
      let blob_name := blob_name_of u fname in
      modify (emit (EvUpload (BUCKET_NAME g) blob_name file_bytes)) ;;
      match upload_error (BUCKET_NAME g) blob_name file_bytes with
      | Some e => raise e
      | None =>
          modify (add_blob blob_name file_bytes) ;;
          ret (public_url (BUCKET_NAME g) blob_name)
      end
  end.

(** ** home and get_items *)

(** The dict built from a row of the feed. *)
Definition feed_json (it : Item) : pyval :=
  PyDict [("id", PyStr (item_id it)); ("title", PyStr (title it));
          ("bio", py_of_text (bio it)); ("category", py_of_text (category it));
          ("image_url", PyStr (image_url it))].

Definition fetch_items_failed (e : exn) : Py Response :=
  print (String.append "Error fetching items: " (format_exc e)) ;;
  ret (jsonify 500 (error_report "Failed to fetch items" e)).

(** [render_template(template, items=context)]. *)
Definition render_template (template : string) (context : pyval) : Py Response :=
  match render_error template context with
  | Some e => raise e
  | None => ret (mkResponse 200 (Html template context))
  end.

Definition home (g : Globals) (request : Request) : Py Response :=
  match engine g with
  | None => ret engine_not_initialized
  | Some eng =>
      try_except
        (with_connect eng
           (result <- conn_execute SelectFeed [] (statement select_feed) ;;
            let items := map feed_json result in
            conn_commit ;;
            render_template "app.html" (PyList items)))
        fetch_items_failed
  end.

Definition get_items (g : Globals) (request : Request) : Py Response :=
  match engine g with
  | None => ret engine_not_initialized
  | Some eng =>
      try_except
        (with_connect eng
           (result <- conn_execute SelectFeed [] (statement select_feed) ;;
            let items := map feed_json result in
            conn_commit ;;
            ret (jsonify 200 (PyList items))))
        fetch_items_failed
  end.

(** ** list_item *)

Definition newline : string := String (Ascii.ascii_of_nat 10) EmptyString.

Definition quoted (s : string) : string := String.append dquote (String.append s dquote).

(** The prompt of [list_item], line by line. *)
Definition prompt : string :=
  String.concat newline
    [ EmptyString;
      "    You are a witty community manager for NeighborLoop. ";
      "    Analyze this surplus item and return JSON:";
      "    {";
      String.concat EmptyString
        ["        "; quoted "bio"; ": ";
         quoted "First-person witty dating-style profile bio, for the product, not longer than 2 lines";
         ","];
      String.concat EmptyString
        ["        "; quoted "category"; ": "; quoted "One-word category"; ","];
      String.concat EmptyString
        ["        "; quoted "tags"; ": ["; quoted "tag1"; ", "; quoted "tag2"; "]"];
      "    }";
      "    " ].

(** [genai_client.models.generate_content(...)].text *)
Definition models_generate_content (g : Globals) (model : string) (image : list byte)
    (text : string) : Py string :=
  match genai_client g with
  | None => raise (Exception "AttributeError" "'NoneType' object has no attribute 'models'")
  | Some _ =>
      modify (emit (EvGenerate model image text)) ;;
      lift (generate_content model image text)
  end.

Definition list_item (g : Globals) (request : Request) : Py Response :=
  match engine g with
  | None => ret engine_not_initialized
  | Some eng =>
      match lookup (files request) "image" with
      | None => ret (jsonify 400 (PyDict [("error", PyStr "No image provided")]))
      | Some image_file =>
          let provider_name := form_get (form request) "provider_name" "Anonymous" in
          let provider_phone := form_get (form request) "provider_phone" "No Phone" in
          let item_title := form_get (form request) "item_title" "No Title" in
          let image_bytes := content image_file in
          uploaded <-
            try_except
              (url <- upload_to_gcs g image_bytes (filename image_file) ;; ret (inr url))
              (fun e =>
                 ret (inl (jsonify 500
                             (PyDict [("error", PyStr "GCS Upload Failed");
                                      ("details", PyStr (exn_str e))])))) ;;
          match uploaded with
          | inl failure => ret failure
          | inr image_url =>
              try_except
                (response_text <-
                   models_generate_content g "gemini-3-flash-preview" image_bytes prompt ;;
                 profile <- lift (json_loads response_text) ;;
                 generated_owner_id <- uuid4 ;;
                 item_id <-
                   with_connect eng
                     (b <- py_get profile "bio" (PyStr "No bio provided.") ;;
                      cat <- py_get profile "category" (PyStr "Misc") ;;
                      result <-
                        conn_execute InsertItem
                          [PyStr generated_owner_id; PyStr provider_name;
                           PyStr provider_phone; PyStr item_title; b; cat;
                           PyStr image_url]
                          (insert_item generated_owner_id provider_name provider_phone
                             item_title b cat image_url) ;;
                      item_id <- first_column (fetchone result) ;;
                      conn_commit ;;
                      ret item_id) ;;
                 ret (jsonify 200
                        (PyDict [("status", PyStr "success");
                                 ("item_id", PyStr item_id);
                                 ("image_url", PyStr image_url);
                                 ("profile", profile)])))
                (fun e =>
                   print (String.append "Error during item listing: " (format_exc e)) ;;
                   ret (jsonify 500 (error_report "Operation Failed" e)))
          end
      end
  end.

(** ** search *)

(** The dict built from a row of the search; the score is rounded here. *)
Definition hit_json (row : Item * float) : pyval :=
  PyDict [("id", PyStr (item_id (fst row))); ("title", PyStr (title (fst row)));
          ("bio", py_of_text (bio (fst row)));
          ("category", py_of_text (category (fst row)));
          ("image_url", PyStr (image_url (fst row)));
          ("score", PyFloat (py_round (snd row) 3))].

Definition search (g : Globals) (request : Request) : Py Response :=
  match engine g with
  | None => ret engine_not_initialized
  | Some eng =>
      let query_text := lookup (args request) "query" in
      if negb (str_truthy query_text) then ret (jsonify 200 (PyList []))
      else
        let query := match query_text with Some q => q | None => EmptyString end in
        try_except
          (with_connect eng
             (print (String.append "Searching for: " query) ;;
              result <-
                conn_execute SearchItems [PyStr query] (statement (select_search query)) ;;
              let hits := map hit_json result in
              ret (jsonify 200 (PyList hits))))
          (fun e =>
             print (String.append "Error during search: " (format_exc e)) ;;
             ret (jsonify 500 (PyDict [("error", PyStr (exn_str e))])))
  end.

(** ** handle_swipe *)

Definition no_match (swiper_id : string) : Response :=
  jsonify 200 (PyDict [("is_match", PyBool false); ("swiper_id", PyStr swiper_id)]).

Definition handle_swipe (g : Globals) (request : Request) : Py Response :=
  match engine g with
  | None => ret engine_not_initialized
  | Some eng =>
      data <- lift (json request) ;;
      direction <- py_get data "direction" PyNone ;;
      item_id <- py_get data "item_id" PyNone ;;
      swiper_id <- uuid4 ;;
      if negb (py_truthy item_id) || negb (py_in_strs direction ["left"; "right"])
      then ret (jsonify 400 (PyDict [("error", PyStr "Invalid swipe data")]))
      else
        try_except
          (with_connect eng
             (let is_match := py_eq_str direction "right" in
              conn_execute InsertSwipe
                [PyStr swiper_id; item_id; direction; PyBool is_match]
                (insert_swipe swiper_id item_id direction is_match) ;;
              if is_match
              then
                rows <- conn_execute SelectProvider [item_id] (select_provider item_id) ;;
                let res := fetchone rows in
                conn_execute UpdateMatched [item_id] (update_matched item_id) ;;
                conn_commit ;;
                match res with
                | Some row =>
                    ret (jsonify 200
                           (PyDict [("is_match", PyBool true);
                                    ("provider_name", PyStr (fst row));
                                    ("provider_phone", PyStr (snd row));
                                    ("swiper_id", PyStr swiper_id)]))
                | None => conn_commit ;; ret (no_match swiper_id)
                end
              else conn_commit ;; ret (no_match swiper_id)))
          (fun e =>
             print (String.append "Swipe error: " (format_exc e)) ;;
             ret (jsonify 500 (error_report "Database error during swipe" e)))
  end.

(** ** get_matches *)

Definition match_json (row : Swipe * Item) : pyval :=
  PyDict [("item_id", py_of_text (s_item_id (fst row)));
          ("item_title", PyStr (title (snd row)));
          ("item_image_url", PyStr (image_url (snd row)));
          ("provider_name", PyStr (provider_name (snd row)));
          ("provider_phone", PyStr (provider_phone (snd row)))].

Definition get_matches (g : Globals) (request : Request) : Py Response :=
  match engine g with
  | None => ret engine_not_initialized
  | Some eng =>
      let swiper_id := lookup (args request) "swiper_id" in
      if negb (str_truthy swiper_id)
      then ret (jsonify 400 (PyDict [("error", PyStr "swiper_id is required")]))
      else
        let swiper := match swiper_id with Some s => s | None => EmptyString end in
        try_except
          (with_connect eng
             (result <-
                conn_execute SelectMatches [PyStr swiper]
                  (statement (select_matches swiper)) ;;
              let matches := map match_json result in
              ret (jsonify 200 (PyList matches))))
          (fun e =>
             print (String.append "Error fetching matches: " (format_exc e)) ;;
             ret (jsonify 500 (PyDict [("error", PyStr (exn_str e))])))
  end.

(** ** Start of the process: the module-level statements *)

(** The three assignments of the [try] block, in order; the exception
    that interrupted them, if any, and the variables as they are then. *)
Definition initialize_clients (g : Globals) : Globals * option exn :=
  match genai_Client_error (API_KEY g) with
  | Some e => (g, Some e)
  | None =>
      let g1 := mkGlobals (API_KEY g) (DATABASE_URL g) (BUCKET_NAME g)
                  (Some {| client_api_key := API_KEY g |}) (storage_client g) (engine g) in
      match storage_Client_error with
      | Some e => (g1, Some e)
      | None =>
          let g2 := mkGlobals (API_KEY g) (DATABASE_URL g) (BUCKET_NAME g)
                      (genai_client g1) (Some StorageHandle) (engine g) in
          match DATABASE_URL g with
          | Some url =>
              if String.eqb url EmptyString
              then (g2, Some (Exception "ValueError"
                                "DATABASE_URL is not set in environment variables."))
              else
                match create_engine_error url with
                | Some e => (g2, Some e)
                | None =>
                    (mkGlobals (API_KEY g) (DATABASE_URL g) (BUCKET_NAME g)
                       (genai_client g2) (storage_client g2)
                       (Some {| engine_url := url; pool_pre_ping := true |}),
                     None)
                end
          | None =>
              (g2, Some (Exception "ValueError"
                           "DATABASE_URL is not set in environment variables."))
          end
      end
  end.

(** Import of the module under the environment [env] (after
    [load_dotenv()]): the configuration is read, the clients are
    initialised, an exception of the initialisation is printed.  The
    result is the module's variables; an exception that left the module
    would be the [inl] case and end the process. *)
Definition startup (env : list (string * string)) : Py Globals :=
  let g0 := mkGlobals (lookup env "GEMINI_API_KEY") (lookup env "DATABASE_URL")
              (lookup env "GCS_BUCKET_NAME") None None None in
  match initialize_clients g0 with
  | (g, None) => ret g
  | (g, Some e) =>
      print (String.append "Initialization Error: " (format_exc e)) ;;
      ret g
  end.

(** The routes of the application. *)
Inductive route : Type :=
| RouteHome | RouteItems | RouteListItem | RouteSearch | RouteSwipe | RouteMatches.

Definition dispatch (r : route) : Globals -> Request -> Py Response :=
  match r with
  | RouteHome => home
  | RouteItems => get_items
  | RouteListItem => list_item
  | RouteSearch => search
  | RouteSwipe => handle_swipe
  | RouteMatches => get_matches
  end.

(** ** Notions used in the statements *)

(** The two fields a swipe reads from its body. *)
Definition swipe_field (request : Request) (key : string) : pyval :=
  match json request with
  | inr (PyDict d) => dict_get d key PyNone
  | _ => PyNone
  end.

Definition swipe_direction (request : Request) : pyval := swipe_field request "direction".

Definition swipe_item_id (request : Request) : pyval := swipe_field request "item_id".

(** The body of the request is a JSON object. *)
Definition json_object (request : Request) : Prop :=
  exists d : list (string * pyval), json request = inr (PyDict d).

(** No call of the database driver raises: the database is reachable,
    every statement and every commit succeeds. *)
Definition database_answers : Prop :=
  forall c : db_call, db_error c = None.

(** The JSON of a match. *)
Definition match_found (name phone swiper_id : string) : Response :=
  jsonify 200
    (PyDict [("is_match", PyBool true); ("provider_name", PyStr name);
             ("provider_phone", PyStr phone); ("swiper_id", PyStr swiper_id)]).

Definition invalid_swipe : Response :=
  jsonify 400 (PyDict [("error", PyStr "Invalid swipe data")]).

(** The UPDATE of a right swipe, on the rows of the table. *)
Definition mark_matched (id : pyval) (rows : list Item) : list Item :=
  map (fun it => if id_matches id it then set_status matched it else it) rows.

(** The rows of a search, in the order of the result, each with its
    distance to the embedding of the query. *)
Definition ranked_rows (query : string) (d : Database) : list (Item * float) :=
  firstn 5 (order_by (fun a b => float_leb (snd a) (snd b)) (search_candidates query d)).

(** The score of a hit, from the distance of its row. *)
Definition score_of (distance : float) : float := py_round (one_minus distance) 3.

(** The rows of the feed, in the order of the result. *)
Definition feed_rows (d : Database) : list Item :=
  firstn 20
    (order_by (fun a b => Nat.leb (created_at b) (created_at a))
       (filter (fun it => item_status_eqb (status it) available) (items d))).

(** The rows of [get_matches], in the order of the result. *)
Definition match_rows (swiper : string) (d : Database) : list (Swipe * Item) :=
  fst (select_matches swiper d).


(** What a route may do to a row of items: nothing, or mark it matched. *)
Definition row_kept (before after : Item) : Prop :=
  after = before \/ after = set_status matched before.

(** What a route may do to the tables: append at most one swipe, keep
    every item (up to its status, which may become matched), append at
    most one item. *)
Definition tables_evolve (d d' : Database) : Prop :=
  (exists new_swipes,
      swipes d' = swipes d ++ new_swipes /\ length new_swipes <= 1)
  /\ (exists kept new_items,
         items d' = kept ++ new_items
         /\ Forall2 row_kept (items d) kept
         /\ length new_items <= 1)
  /\ serial d <= serial d'.


(** * Properties *)

(** ** The swipe handler, step by step *)

Ltac run_py :=
  unfold try_except, with_connect, finally, bind, engine_connect, conn_execute,
    conn_commit, statement, modify, ret, raise, print, uuid4, lift, render_template;
  cbn.

Lemma in_left_right (v : pyval) :
  py_in_strs v ["left"; "right"] = true -> v = PyStr "left" \/ v = PyStr "right".
Proof.
  unfold py_in_strs. cbn [existsb].
  destruct v; cbn [py_eq_str]; try discriminate.
  rewrite orb_false_r. intros H. apply orb_true_iff in H.
  destruct H as [H | H]; apply String.eqb_eq in H; subst; auto.
Qed.

Lemma fetchone_filter {A B : Type} (f : A -> B) (p : A -> bool) (l : list A) :
  fetchone (map f (filter p l)) = option_map f (find p l).
Proof.
  induction l as [| a l IH]; cbn; [reflexivity |].
  destruct (p a); cbn; [reflexivity | exact IH].
Qed.

Lemma id_matches_set_status (id : pyval) (st : item_status) (it : Item) :
  id_matches id (set_status st it) = id_matches id it.
Proof. reflexivity. Qed.

Lemma handle_swipe_down (g : Globals) (request : Request) (w : World) :
  engine g = None ->
  handle_swipe g request w = (inr engine_not_initialized, w).
Proof. intros Heng. unfold handle_swipe. rewrite Heng. reflexivity. Qed.

Lemma swipe_fields (request : Request) (d : list (string * pyval)) :
  json request = inr (PyDict d) ->
  dict_get d "direction" PyNone = swipe_direction request
  /\ dict_get d "item_id" PyNone = swipe_item_id request.
Proof.
  intros H. unfold swipe_direction, swipe_item_id, swipe_field. rewrite H.
  split; reflexivity.
Qed.

Lemma handle_swipe_rejected (g : Globals) (eng : Engine) (request : Request) (w : World) :
  engine g = Some eng ->
  json_object request ->
  negb (py_truthy (swipe_item_id request))
  || negb (py_in_strs (swipe_direction request) ["left"; "right"]) = true ->
  handle_swipe g request w = (inr invalid_swipe, draw_uuid w).
Proof.
  intros Heng [d Hjson] Hbad. unfold handle_swipe. rewrite Heng, Hjson.
  destruct (swipe_fields request d Hjson) as [Hd Hi].
  unfold lift, py_get, bind, ret, uuid4. rewrite Hd, Hi, Hbad. reflexivity.
Qed.

Lemma handle_swipe_left (g : Globals) (eng : Engine) (request : Request) (w : World)
    (bound : option string) :
  engine g = Some eng ->
  json_object request ->
  database_answers ->
  py_truthy (swipe_item_id request) = true ->
  swipe_direction request = PyStr "left" ->
  sql_text (swipe_item_id request) = inr bound ->
  handle_swipe g request w =
  (inr (no_match (uuid4_str (uuid_draws w))),
   mkWorld
     (mkDatabase (items (db w))
        (swipes (db w)
         ++ [mkSwipe (uuid4_str (uuid_draws w)) bound (Some "left") false])
        (serial (db w)))
     None (bucket w) (S (uuid_draws w))
     (EvCommit :: EvExecute InsertSwipe :: EvConnect :: log w)).
Proof.
  intros Heng [d Hjson] Hq Hid Hdir Hbound. unfold handle_swipe. rewrite Heng, Hjson.
  destruct (swipe_fields request d Hjson) as [Hd Hi].
  unfold lift, py_get. unfold bind at 1 2 3 4. unfold ret at 1 2 3, uuid4 at 1.
  rewrite Hd, Hi, Hdir, Hid.
  cbn [negb orb py_in_strs existsb py_eq_str String.eqb Ascii.eqb Bool.eqb].
  unfold insert_swipe. rewrite Hbound. cbn [sql_text].
  run_py. rewrite ?Hq. cbn. rewrite ?Hq. reflexivity.
Qed.

Lemma handle_swipe_right (g : Globals) (eng : Engine) (request : Request) (w : World)
    (bound : option string) :
  engine g = Some eng ->
  json_object request ->
  database_answers ->
  py_truthy (swipe_item_id request) = true ->
  swipe_direction request = PyStr "right" ->
  sql_text (swipe_item_id request) = inr bound ->
  handle_swipe g request w =
  (inr match find (id_matches (swipe_item_id request)) (items (db w)) with
       | Some it =>
           match_found (provider_name it) (provider_phone it) (uuid4_str (uuid_draws w))
       | None => no_match (uuid4_str (uuid_draws w))
       end,
   mkWorld
     (mkDatabase
        (map (fun it =>
                if id_matches (swipe_item_id request) it
                then set_status matched it else it)
           (items (db w)))
        (swipes (db w)
         ++ [mkSwipe (uuid4_str (uuid_draws w)) bound (Some "right") true])
        (serial (db w)))
     None (bucket w) (S (uuid_draws w))
     (match find (id_matches (swipe_item_id request)) (items (db w)) with
      | Some _ => []
      | None => [EvCommit]
      end
      ++ EvCommit :: EvExecute UpdateMatched :: EvExecute SelectProvider
         :: EvExecute InsertSwipe :: EvConnect :: log w)).
Proof.
  intros Heng [d Hjson] Hq Hid Hdir Hbound. unfold handle_swipe. rewrite Heng, Hjson.
  destruct (swipe_fields request d Hjson) as [Hd Hi].
  unfold lift, py_get. unfold bind at 1 2 3 4. unfold ret at 1 2 3, uuid4 at 1.
  rewrite Hd, Hi, Hdir, Hid.
  cbn [negb orb py_in_strs existsb py_eq_str String.eqb Ascii.eqb Bool.eqb].
  unfold insert_swipe, select_provider, update_matched. rewrite Hbound. cbn [sql_text].
  run_py. rewrite ?Hq. cbn. rewrite ?Hq. cbn. rewrite ?Hq. cbn.
  rewrite fetchone_filter.
  destruct (find (id_matches (swipe_item_id request)) (items (db w))); cbn;
    rewrite ?Hq; reflexivity.
Qed.

(** Every run of [handle_swipe], on the tables: nothing is written, or
    the swipe of a left swipe, or the swipe and the update of a right
    swipe. *)
Lemma handle_swipe_tables (g : Globals) (request : Request) (w : World) :
  let d' := db (snd (handle_swipe g request w)) in
  d' = db w
  \/ (exists (swiper : string) (bound : option string),
        swipe_direction request = PyStr "left"
        /\ d' = mkDatabase (items (db w))
                  (swipes (db w) ++ [mkSwipe swiper bound (Some "left") false])
                  (serial (db w)))
  \/ (exists (swiper : string) (bound : option string),
        swipe_direction request = PyStr "right"
        /\ d' = mkDatabase (mark_matched (swipe_item_id request) (items (db w)))
                  (swipes (db w) ++ [mkSwipe swiper bound (Some "right") true])
                  (serial (db w))).
Proof.
  cbv zeta. destruct (handle_swipe g request w) as [r w'] eqn:Hrun. cbn [snd].
  revert Hrun.
  destruct (engine g) as [eng |] eqn:Heng;
    [| rewrite (handle_swipe_down g request w Heng);
       intros H; injection H as <- <-; left; reflexivity].
  destruct (json request) as [e | data] eqn:Hjson;
    [unfold handle_swipe; rewrite Heng, Hjson;
     intros H; injection H as <- <-; left; reflexivity |].
  destruct data;
    try (unfold handle_swipe; rewrite Heng, Hjson;
         intros H; injection H as <- <-; left; reflexivity).
  assert (Hobj : json_object request) by (eexists; exact Hjson).
  destruct (negb (py_truthy (swipe_item_id request))
            || negb (py_in_strs (swipe_direction request) ["left"; "right"])) eqn:Hbad.
  { rewrite (handle_swipe_rejected g eng request w Heng Hobj Hbad).
    intros H; injection H as <- <-. left. reflexivity. }
  apply orb_false_iff in Hbad. destruct Hbad as [Hid Hin].
  apply negb_false_iff in Hid. apply negb_false_iff in Hin.
  unfold handle_swipe. rewrite Heng, Hjson.
  destruct (swipe_fields request d Hjson) as [Hd Hi].
  unfold lift, py_get. unfold bind at 1 2 3 4. unfold ret at 1 2 3, uuid4 at 1.
  rewrite Hd, Hi, Hid, Hin. cbn [negb orb].
  unfold insert_swipe, select_provider, update_matched.
  destruct (in_left_right _ Hin) as [Hdir | Hdir]; rewrite Hdir;
    cbn [py_eq_str String.eqb Ascii.eqb Bool.eqb sql_text];
    destruct (sql_text (swipe_item_id request)) as [e | bound] eqn:Hbound;
    run_py;
    repeat (match goal with
            | |- context [db_error ?c] => destruct (db_error c)
            | |- context [fetchone ?x] => destruct (fetchone x)
            end; cbn);
    intros H; injection H as <- <-; cbn;
    first [ left; reflexivity
          | right; left; eexists; eexists; split; reflexivity
          | right; right; eexists; eexists; split; reflexivity ].
Qed.

Lemma find_mark_matched (id : pyval) (rows : list Item) :
  find (id_matches id) (mark_matched id rows)
  = option_map (set_status matched) (find (id_matches id) rows).
Proof.
  unfold mark_matched.
  induction rows as [| it rows IH]; [reflexivity |].
  cbn [map find]. destruct (id_matches id it) eqn:E.
  - rewrite id_matches_set_status, E. reflexivity.
  - rewrite E. exact IH.
Qed.

Lemma mark_matched_status (id : pyval) (rows : list Item) (it : Item) :
  In it (mark_matched id rows) -> id_matches id it = true -> status it = matched.
Proof.
  unfold mark_matched. intros Hin Hid. apply in_map_iff in Hin.
  destruct Hin as [it0 [Heq Hin0]].
  destruct (id_matches id it0) eqn:E; subst it.
  - reflexivity.
  - congruence.
Qed.

Lemma mark_matched_absent (id : pyval) (rows : list Item) :
  find (id_matches id) rows = None -> mark_matched id rows = rows.
Proof.
  unfold mark_matched.
  induction rows as [| it rows IH]; [reflexivity |].
  cbn [map find]. destruct (id_matches id it) eqn:E; [discriminate |].
  intros H. rewrite (IH H). reflexivity.
Qed.

Lemma mark_matched_idempotent (id : pyval) (rows : list Item) :
  mark_matched id (mark_matched id rows) = mark_matched id rows.
Proof.
  unfold mark_matched. rewrite map_map. apply map_ext. intros it.
  destruct (id_matches id it) eqn:E.
  - rewrite id_matches_set_status, E. reflexivity.
  - rewrite E. reflexivity.
Qed.

(** A swipe whose direction is a string has a JSON object as body. *)
Lemma direction_needs_object (request : Request) (s : string) :
  swipe_direction request = PyStr s -> json_object request.
Proof.
  unfold swipe_direction, swipe_field, json_object.
  destruct (json request) as [e | v]; [discriminate |].
  destruct v; try discriminate. intros _. eexists. reflexivity.
Qed.

(** ** Right swipes *)

(** C1, as amended: while the database engine is initialised and no call
    of the database raises, a swipe with direction right and a truthy
    item_id that the driver can bind answers, when a row of items has
    that item_id, 200 with is_match true, the provider_name and
    provider_phone stored in the (first) such row and the swiper_id drawn
    for this call, and every row of that item_id then has status matched,
    the other rows being as they were; when no row has that item_id it
    answers 200 with is_match false and the swiper_id only, and the items
    table is as it was. *)
Theorem swipe_right_outcome (g : Globals) (eng : Engine) (request : Request) (w : World)
    (bound : option string) :
  engine g = Some eng ->
  database_answers ->
  py_truthy (swipe_item_id request) = true ->
  swipe_direction request = PyStr "right" ->
  sql_text (swipe_item_id request) = inr bound ->
  let id := swipe_item_id request in
  let swiper_id := uuid4_str (uuid_draws w) in
  let out := handle_swipe g request w in
  (forall it : Item,
      find (id_matches id) (items (db w)) = Some it ->
      fst out =
        inr (jsonify 200
               (PyDict [("is_match", PyBool true);
                        ("provider_name", PyStr (provider_name it));
                        ("provider_phone", PyStr (provider_phone it));
                        ("swiper_id", PyStr swiper_id)]))
      /\ items (db (snd out))
         = map (fun r => if id_matches id r then set_status matched r else r)
             (items (db w))
      /\ In (set_status matched it) (items (db (snd out)))
      /\ (forall r, In r (items (db (snd out))) ->
                    id_matches id r = true -> status r = matched))
  /\ (find (id_matches id) (items (db w)) = None ->
      fst out =
        inr (jsonify 200
               (PyDict [("is_match", PyBool false); ("swiper_id", PyStr swiper_id)]))
      /\ items (db (snd out)) = items (db w)).
Proof.
  intros Heng Hq Hid Hdir Hbound id swiper_id out. subst out.
  pose proof (direction_needs_object request _ Hdir) as Hobj.
  rewrite (handle_swipe_right g eng request w bound Heng Hobj Hq Hid Hdir Hbound).
  fold id. fold swiper_id. cbn [fst snd db items]. split.
  - intros it Hfind. rewrite Hfind. repeat split.
    + fold (mark_matched id (items (db w))).
      apply find_some in Hfind. destruct Hfind as [Hin Hm].
      unfold mark_matched. apply in_map_iff. exists it. rewrite Hm. auto.
    + intros r Hin Hr. exact (mark_matched_status id _ r Hin Hr).
  - intros Hnone. rewrite Hnone. split; [reflexivity |].
    exact (mark_matched_absent id (items (db w)) Hnone).
Qed.

Lemma id_matches_bound (id : pyval) (it : Item) :
  id_matches id it = true -> sql_text id = inr (Some (item_id it)).
Proof.
  unfold id_matches. destruct (sql_text id) as [e | [t |]]; try discriminate.
  intros H. apply String.eqb_eq in H. rewrite H. reflexivity.
Qed.

(** C9, as amended: while the database engine is initialised and no call
    of the database raises, two right swipes in sequence on an item_id
    that a row of items has both answer 200 with is_match true and that
    row's provider_name and provider_phone (each with the swiper_id drawn
    for its call), and after both every row of that item_id has status
    matched; the second swipe leaves the items table as the first one
    left it. *)
Theorem swipe_right_twice (g : Globals) (eng : Engine) (request : Request) (w : World)
    (it : Item) :
  engine g = Some eng ->
  database_answers ->
  py_truthy (swipe_item_id request) = true ->
  swipe_direction request = PyStr "right" ->
  find (id_matches (swipe_item_id request)) (items (db w)) = Some it ->
  let id := swipe_item_id request in
  let first := handle_swipe g request w in
  let second := handle_swipe g request (snd first) in
  fst first
  = inr (match_found (provider_name it) (provider_phone it) (uuid4_str (uuid_draws w)))
  /\ fst second
     = inr (match_found (provider_name it) (provider_phone it)
              (uuid4_str (S (uuid_draws w))))
  /\ items (db (snd second)) = items (db (snd first))
  /\ In (set_status matched it) (items (db (snd second)))
  /\ (forall r, In r (items (db (snd second))) ->
                id_matches id r = true -> status r = matched).
Proof.
  intros Heng Hq Hid Hdir Hfind id first second. subst second first.
  pose proof (direction_needs_object request _ Hdir) as Hobj.
  assert (Hbound : sql_text (swipe_item_id request) = inr (Some (item_id it))).
  { apply id_matches_bound. apply find_some in Hfind. tauto. }
  rewrite (handle_swipe_right g eng request w _ Heng Hobj Hq Hid Hdir Hbound).
  cbn [fst snd].
  rewrite (handle_swipe_right g eng request _ _ Heng Hobj Hq Hid Hdir Hbound).
  cbn [fst snd db items uuid_draws]. fold id.
  fold (mark_matched id (items (db w))).
  fold (mark_matched id (mark_matched id (items (db w)))).
  rewrite find_mark_matched, mark_matched_idempotent. fold id in Hfind.
  rewrite Hfind. cbn [option_map]. repeat split.
  - apply find_some in Hfind. destruct Hfind as [Hin Hm].
    unfold mark_matched. apply in_map_iff. exists it. rewrite Hm. auto.
  - intros r Hin Hr. exact (mark_matched_status id _ r Hin Hr).
Qed.

(** C10, as amended: while the database engine is initialised and no
    call of the database raises, a swipe with direction right and a
    truthy item_id that the driver can bind and that no row of items has
    appends one row to swipes, with is_match true, although the response
    of that request says is_match false. *)
Theorem swipe_right_unknown_item (g : Globals) (eng : Engine) (request : Request)
    (w : World) (bound : option string) :
  engine g = Some eng ->
  database_answers ->
  py_truthy (swipe_item_id request) = true ->
  swipe_direction request = PyStr "right" ->
  sql_text (swipe_item_id request) = inr bound ->
  find (id_matches (swipe_item_id request)) (items (db w)) = None ->
  let swiper_id := uuid4_str (uuid_draws w) in
  let out := handle_swipe g request w in
  swipes (db (snd out))
  = swipes (db w) ++ [mkSwipe swiper_id bound (Some "right") true]
  /\ fst out =
       inr (jsonify 200
              (PyDict [("is_match", PyBool false); ("swiper_id", PyStr swiper_id)])).
Proof.
  intros Heng Hq Hid Hdir Hbound Hnone swiper_id out. subst out.
  pose proof (direction_needs_object request _ Hdir) as Hobj.
  rewrite (handle_swipe_right g eng request w bound Heng Hobj Hq Hid Hdir Hbound), Hnone.
  split; reflexivity.
Qed.

(** ** Left swipes *)

Lemma handle_swipe_not_right_items (g : Globals) (request : Request) (w : World) :
  swipe_direction request <> PyStr "right" ->
  items (db (snd (handle_swipe g request w))) = items (db w).
Proof.
  intros Hdir.
  destruct (handle_swipe_tables g request w) as [H | [H | H]].
  - rewrite H. reflexivity.
  - destruct H as [swiper [bound [_ H]]]. rewrite H. reflexivity.
  - destruct H as [swiper [bound [H _]]]. contradiction.
Qed.

(** C8, as amended: a swipe with direction left and a truthy item_id
    leaves every row of items as it was, whatever the engine and the
    database do; while the database engine is initialised, no call of the
    database raises and the driver can bind the item_id, the response is
    200 with is_match false and the swiper_id drawn for this call, and one
    row with is_match false is appended to swipes. *)
Theorem swipe_left_outcome (g : Globals) (request : Request) (w : World) :
  py_truthy (swipe_item_id request) = true ->
  swipe_direction request = PyStr "left" ->
  let swiper_id := uuid4_str (uuid_draws w) in
  let out := handle_swipe g request w in
  items (db (snd out)) = items (db w)
  /\ (forall (eng : Engine) (bound : option string),
        engine g = Some eng ->
        database_answers ->
        sql_text (swipe_item_id request) = inr bound ->
        fst out =
          inr (jsonify 200
                 (PyDict [("is_match", PyBool false); ("swiper_id", PyStr swiper_id)]))
        /\ swipes (db (snd out))
           = swipes (db w) ++ [mkSwipe swiper_id bound (Some "left") false]).
Proof.
  intros Hid Hdir swiper_id out. subst out. split.
  - apply handle_swipe_not_right_items. rewrite Hdir. intros H. discriminate H.
  - intros eng bound Heng Hq Hbound.
    pose proof (direction_needs_object request _ Hdir) as Hobj.
    rewrite (handle_swipe_left g eng request w bound Heng Hobj Hq Hid Hdir Hbound).
    split; reflexivity.
Qed.

(** ** Validation of a swipe *)

(** C4, as amended: while the database engine is initialised and the
    body is a JSON object, a swipe whose item_id is missing or falsy
    (null, the empty string, 0, false, an empty list or object) or whose
    direction is not the string left or right answers 400 and leaves the
    database as it was; a swipe with a truthy item_id that the driver can
    bind and direction left or right, no call of the database raising,
    answers 200 and appends exactly one row to swipes, whose is_match is
    true exactly when direction is right. *)
Theorem swipe_validation (g : Globals) (eng : Engine) (request : Request) (w : World) :
  engine g = Some eng ->
  json_object request ->
  let id := swipe_item_id request in
  let direction := swipe_direction request in
  let out := handle_swipe g request w in
  (py_truthy id = false \/ py_in_strs direction ["left"; "right"] = false ->
   fst out = inr (jsonify 400 (PyDict [("error", PyStr "Invalid swipe data")]))
   /\ db (snd out) = db w)
  /\ (forall bound : option string,
        py_truthy id = true ->
        py_in_strs direction ["left"; "right"] = true ->
        database_answers ->
        sql_text id = inr bound ->
        (exists resp, fst out = inr resp /\ status_code resp = 200)
        /\ exists dir_text : string,
             direction = PyStr dir_text
             /\ swipes (db (snd out))
                = swipes (db w)
                  ++ [mkSwipe (uuid4_str (uuid_draws w)) bound (Some dir_text)
                        (py_eq_str direction "right")]).
Proof.
  intros Heng Hobj id direction out. subst out. split.
  - intros Hbad.
    rewrite (handle_swipe_rejected g eng request w Heng Hobj).
    + split; reflexivity.
    + fold id. fold direction. destruct Hbad as [H | H]; rewrite H; cbn.
      * reflexivity.
      * apply orb_true_r.
  - intros bound Hid Hdir Hq Hbound. destruct (in_left_right _ Hdir) as [Hl | Hr].
    + rewrite (handle_swipe_left g eng request w bound Heng Hobj Hq Hid Hl Hbound).
      subst direction. rewrite Hl.
      split; [eexists; split; reflexivity | eexists; split; reflexivity].
    + rewrite (handle_swipe_right g eng request w bound Heng Hobj Hq Hid Hr Hbound).
      subst direction. rewrite Hr. split; [| eexists; split; reflexivity].
      destruct (find _ _); eexists; split; reflexivity.
Qed.
(** ** Requests that stop before any call *)

(** C5, as amended: a listing submission without an image part leaves
    the world as it was (no row, no upload, no call of the model, no
    statement, no UUID drawn); the response is 400 while the database
    engine is initialised and 500 when it is not. *)
Theorem list_item_without_image (g : Globals) (request : Request) (w : World) :
  lookup (files request) "image" = None ->
  let out := list_item g request w in
  snd out = w
  /\ (forall eng : Engine,
        engine g = Some eng ->
        fst out = inr (jsonify 400 (PyDict [("error", PyStr "No image provided")])))
  /\ (engine g = None ->
      fst out =
        inr (jsonify 500 (PyDict [("error", PyStr "Database engine not initialized.")]))).
Proof.
  intros Hfile out. subst out. unfold list_item.
  destruct (engine g) as [eng |]; [rewrite Hfile |]; cbn;
    (split; [reflexivity | split; [intros ? H | intros H]]);
    try discriminate H; reflexivity.
Qed.

(** C7, as amended: a search whose query parameter is missing or empty
    leaves the world as it was (no connection, no statement, no call of
    the model); the response is the empty JSON list with status 200 while
    the database engine is initialised and 500 when it is not. *)
Theorem search_without_query (g : Globals) (request : Request) (w : World) :
  str_truthy (lookup (args request) "query") = false ->
  let out := search g request w in
  snd out = w
  /\ (forall eng : Engine,
        engine g = Some eng -> fst out = inr (jsonify 200 (PyList [])))
  /\ (engine g = None ->
      fst out =
        inr (jsonify 500 (PyDict [("error", PyStr "Database engine not initialized.")]))).
Proof.
  intros Hq out. subst out. unfold search.
  destruct (engine g) as [eng |]; [rewrite Hq |]; cbn;
    (split; [reflexivity | split; [intros ? H | intros H]]);
    try discriminate H; reflexivity.
Qed.

(** ** Start of the process *)

Lemma dispatch_down (r : route) (g : Globals) (request : Request) (w : World) :
  engine g = None -> dispatch r g request w = (inr engine_not_initialized, w).
Proof.
  intros Heng.
  destruct r; cbn [dispatch];
    unfold home, get_items, list_item, search, handle_swipe, get_matches;
    rewrite Heng; reflexivity.
Qed.

(** The import of the module never lets an exception out. *)
Lemma startup_returns (env : list (string * string)) (w : World) :
  exists (g : Globals) (w' : World), startup env w = (inr g, w') /\ db w' = db w.
Proof.
  unfold startup. destruct (initialize_clients _) as [g [e |]].
  - eexists. eexists. split; reflexivity.
  - eexists. eexists. split; reflexivity.
Qed.

Lemma initialize_clients_without_url (g : Globals) :
  str_truthy (DATABASE_URL g) = false ->
  engine g = None ->
  engine (fst (initialize_clients g)) = None.
Proof.
  intros Hurl Heng. unfold initialize_clients.
  destruct (genai_Client_error (API_KEY g)); [exact Heng |].
  destruct storage_Client_error; [exact Heng |].
  destruct (DATABASE_URL g) as [url |]; [| exact Heng].
  cbn in Hurl. apply negb_false_iff in Hurl. rewrite Hurl. exact Heng.
Qed.

(** C6, as amended: when DATABASE_URL is absent (or empty) at the start
    of the process, the start is not fatal: the import of the module
    returns, with the engine left at None and the database untouched, and
    from then on every route answers 500 with the error
    [Database engine not initialized.] and changes nothing. *)
Theorem startup_without_database_url (env : list (string * string)) (w : World) :
  str_truthy (lookup env "DATABASE_URL") = false ->
  exists (g : Globals) (w' : World),
    startup env w = (inr g, w')
    /\ engine g = None
    /\ db w' = db w
    /\ forall (r : route) (request : Request) (w0 : World),
         dispatch r g request w0 =
           (inr (jsonify 500
                   (PyDict [("error", PyStr "Database engine not initialized.")])),
            w0).
Proof.
  intros Hurl. unfold startup.
  set (g0 := mkGlobals _ _ _ None None None).
  assert (Hdown : engine (fst (initialize_clients g0)) = None)
    by (apply initialize_clients_without_url; [exact Hurl | reflexivity]).
  destruct (initialize_clients g0) as [g [e |]]; cbn [fst] in Hdown;
    eexists; eexists; (split; [reflexivity |]);
    (split; [exact Hdown |]); (split; [reflexivity |]);
    intros r request w0; exact (dispatch_down r g request w0 Hdown).
Qed.

(** ** Listing *)

Ltac split_call :=
  match goal with
  | |- context [db_error ?c] => destruct (db_error c) eqn:?
  | |- context [match sql_text ?v with _ => _ end] => destruct (sql_text v) eqn:?
  | |- context [fetchone ?x] => destruct (fetchone x) eqn:?
  | |- context [render_error ?t ?c] => destruct (render_error t c) eqn:?
  end.

(** C2: a listing submission that succeeds (status 200) has appended
    exactly one row to items and left swipes alone.  The row has status
    available; its title is the form field item_title (No Title when the
    field is absent), not a value of the generated profile; its bio and
    category are the values bound for the profile's bio and category
    (with their defaults when the profile lacks the key); its item_vector
    is embedding('text-embedding-005', title || ' ' || bio), computed by
    the database.  The response carries the item_id of that row, the
    image_url returned by the upload, and the whole generated profile. *)
Theorem list_item_success (g : Globals) (request : Request) (w w' : World)
    (resp : Response) :
  list_item g request w = (inr resp, w') ->
  status_code resp = 200 ->
  exists (image_file : FileStorage) (response_text : string)
         (d : list (string * pyval)) (bio_text category_text : option string),
    lookup (files request) "image" = Some image_file
    /\ generate_content "gemini-3-flash-preview" (content image_file) prompt
       = inr response_text
    /\ json_loads response_text = inr (PyDict d)
    /\ sql_text (dict_get d "bio" (PyStr "No bio provided.")) = inr bio_text
    /\ sql_text (dict_get d "category" (PyStr "Misc")) = inr category_text
    /\ let url :=
         public_url (BUCKET_NAME g)
           (blob_name_of (uuid4_str (uuid_draws w)) (filename image_file)) in
       let item_title := form_get (form request) "item_title" "No Title" in
       let row :=
         mkItem (new_item_id (serial (db w)))
           (uuid4_str (S (uuid_draws w)))
           (form_get (form request) "provider_name" "Anonymous")
           (form_get (form request) "provider_phone" "No Phone")
           item_title bio_text category_text url available
           (option_map (embedding "text-embedding-005")
              (sql_concat (sql_concat (Some item_title) (Some " ")) bio_text))
           (serial (db w)) in
       items (db w') = items (db w) ++ [row]
       /\ swipes (db w') = swipes (db w)
       /\ resp =
            jsonify 200
              (PyDict [("status", PyStr "success");
                       ("item_id", PyStr (item_id row));
                       ("image_url", PyStr url);
                       ("profile", PyDict d)]).
Proof.
  unfold list_item. intros Hrun Hok.
  destruct (engine g) as [eng |]; [| inversion Hrun; subst; discriminate Hok].
  destruct (lookup (files request) "image") as [image_file |];
    [| inversion Hrun; subst; discriminate Hok].
  unfold upload_to_gcs, models_generate_content, insert_item in Hrun.
  destruct (storage_client g); [| inversion Hrun; subst; discriminate Hok].
  revert Hrun. run_py.
  destruct (upload_error _ _ _); cbn;
    [intros Hrun; inversion Hrun; subst; discriminate Hok |].
  destruct (genai_client g); cbn;
    [| intros Hrun; inversion Hrun; subst; discriminate Hok].
  destruct (generate_content _ _ _) as [e | response_text] eqn:Hgen; cbn;
    [intros Hrun; inversion Hrun; subst; discriminate Hok |].
  destruct (json_loads response_text) as [e | profile] eqn:Hjson; cbn;
    [intros Hrun; inversion Hrun; subst; discriminate Hok |].
  destruct profile; cbn;
    repeat (split_call; cbn);
    try (intros Hrun; inversion Hrun; subst; discriminate Hok).
  intros Hrun. inversion Hrun; subst. clear Hrun.
  exists image_file, response_text, d. eexists. eexists. cbn.
  repeat split; try eassumption.
Qed.
(** ** Search *)

Section OrderBy.

Context {A : Type} (leb : A -> A -> bool).
Hypothesis leb_total : forall a b, leb a b = false -> leb b a = true.

Let le (a b : A) : Prop := leb a b = true.

Lemma insert_by_in (x y : A) (l : list A) :
  In x (insert_by leb y l) <-> x = y \/ In x l.
Proof.
  induction l as [| z l IH]; cbn.
  - intuition congruence.
  - destruct (leb y z); cbn; [intuition congruence |].
    rewrite IH. intuition congruence.
Qed.

Lemma order_by_in (x : A) (l : list A) : In x (order_by leb l) <-> In x l.
Proof.
  induction l as [| y l IH]; cbn; [tauto |].
  rewrite insert_by_in, IH. intuition congruence.
Qed.

Lemma insert_by_hd (x y : A) (l : list A) :
  le y x -> HdRel le y l -> HdRel le y (insert_by leb x l).
Proof.
  intros Hyx Hhd. destruct l as [| z l]; cbn.
  - constructor. exact Hyx.
  - destruct (leb x z); constructor; [exact Hyx |].
    inversion Hhd; assumption.
Qed.

Lemma insert_by_sorted (x : A) (l : list A) :
  Sorted le l -> Sorted le (insert_by leb x l).
Proof.
  induction 1 as [| y l Hs IH Hhd]; cbn.
  - repeat constructor.
  - destruct (leb x y) eqn:E.
    + constructor; [constructor; assumption | constructor; exact E].
    + constructor; [exact IH |].
      apply insert_by_hd; [exact (leb_total x y E) | exact Hhd].
Qed.

Lemma order_by_sorted (l : list A) : Sorted le (order_by leb l).
Proof.
  induction l as [| x l IH]; cbn; [constructor |].
  apply insert_by_sorted. exact IH.
Qed.

End OrderBy.

Lemma firstn_sorted {A : Type} (R : A -> A -> Prop) (n : nat) (l : list A) :
  Sorted R l -> Sorted R (firstn n l).
Proof.
  revert l. induction n as [| n IH]; intros l Hs; [constructor |].
  inversion Hs as [| x l' Hs' Hhd]; subst; cbn [firstn]; [constructor |].
  constructor; [exact (IH l' Hs') |].
  inversion Hhd as [| y l2 Hxy]; subst.
  - rewrite firstn_nil. constructor.
  - destruct n; cbn [firstn]; constructor. exact Hxy.
Qed.

Lemma sorted_weaken {A : Type} (R S : A -> A -> Prop) (l : list A) :
  (forall a b, R a b -> S a b) -> Sorted R l -> Sorted S l.
Proof.
  intros Himp. induction 1 as [| x l Hs IH Hhd]; constructor; [exact IH |].
  destruct Hhd; constructor. apply Himp. assumption.
Qed.

Lemma firstn_in {A : Type} (n : nat) (l : list A) (x : A) :
  In x (firstn n l) -> In x l.
Proof.
  revert l. induction n as [| n IH]; intros [| y l]; cbn; try tauto.
  intros [H | H]; [left; exact H | right; exact (IH l H)].
Qed.

(** What the WHERE clause of the search lets through. *)
Lemma search_candidates_in (query : string) (d : Database) (r : Item * float) :
  In r (search_candidates query d) ->
  In (fst r) (items d)
  /\ status (fst r) = available
  /\ ai_if (relevance_prompt (bio (fst r)) query) "gemini-3-flash-preview" = true
  /\ exists v, item_vector (fst r) = Some v
               /\ snd r = cosine_distance v (embedding "text-embedding-005" query).
Proof.
  unfold search_candidates. intros Hin. apply in_flat_map in Hin.
  destruct Hin as [it [Hit Hr]].
  destruct (item_vector it) as [v |] eqn:Hv; [| contradiction].
  destruct (item_status_eqb (status it) available) eqn:Hst; cbn in Hr; [| contradiction].
  destruct (ai_if _ _) eqn:Hai; cbn in Hr; [| contradiction].
  destruct Hr as [Hr | []]. subst r. cbn [fst snd].
  repeat split; try assumption.
  - destruct (status it); [reflexivity | discriminate Hst].
  - exists v. split; [exact Hv | reflexivity].
Qed.

Lemma search_up (g : Globals) (eng : Engine) (request : Request) (w : World)
    (query : string) :
  engine g = Some eng ->
  database_answers ->
  lookup (args request) "query" = Some query ->
  query <> EmptyString ->
  search g request w =
  (inr (jsonify 200
          (PyList
             (map (fun r => hit_json (fst r, one_minus (snd r)))
                (ranked_rows query (db w))))),
   mkWorld (db w) None (bucket w) (uuid_draws w)
     (EvExecute SearchItems
      :: EvPrint (String.append "Searching for: " query) :: EvConnect :: log w)).
Proof.
  intros Heng Hquiet Hq Hne. unfold search. rewrite Heng, Hq.
  cbn [str_truthy]. apply String.eqb_neq in Hne. rewrite Hne. cbn [negb].
  unfold select_search, ranked_rows.
  unfold try_except, with_connect, finally, bind, print, engine_connect,
    conn_execute, statement, modify, ret.
  cbv beta. rewrite ?Hquiet.
  cbn [txn set_txn emit db bucket uuid_draws log fst snd].
  rewrite ?Hquiet.
  cbn [txn set_txn emit db bucket uuid_draws log fst snd].
  rewrite map_map. reflexivity.
Qed.

(** Every run of a search with a non-empty query, the engine being
    initialised: the hits, or the 500 of an exception; nothing is
    written. *)
Lemma search_cases (g : Globals) (eng : Engine) (request : Request) (w : World)
    (query : string) :
  engine g = Some eng ->
  lookup (args request) "query" = Some query ->
  query <> EmptyString ->
  let out := search g request w in
  db (snd out) = db w /\ bucket (snd out) = bucket w
  /\ uuid_draws (snd out) = uuid_draws w
  /\ (fst out =
        inr (jsonify 200
               (PyList
                  (map (fun r => hit_json (fst r, one_minus (snd r)))
                     (ranked_rows query (db w)))))
      \/ exists e : exn,
           fst out = inr (jsonify 500 (PyDict [("error", PyStr (exn_str e))]))).
Proof.
  intros Heng Hq Hne. cbv zeta.
  destruct (search g request w) as [r w'] eqn:Hrun. cbn [fst snd]. revert Hrun.
  unfold search. rewrite Heng, Hq.
  cbn [str_truthy]. apply String.eqb_neq in Hne. rewrite Hne. cbn [negb].
  unfold select_search, ranked_rows.
  unfold try_except, with_connect, finally, bind, print, engine_connect,
    conn_execute, statement, modify, ret.
  cbv beta. destruct (db_error CallConnect);
    cbn [txn set_txn emit db bucket uuid_draws log fst snd].
  - intros H. injection H as <- <-. repeat split. right. eexists. reflexivity.
  - destruct (db_error _);
      cbn [txn set_txn emit db bucket uuid_draws log fst snd];
      intros H; injection H as <- <-; repeat split.
    + right. eexists. reflexivity.
    + left. rewrite map_map. reflexivity.
Qed.

(** C3: for a search with a non-empty query, the hits are built from at
    most 5 rows of items, each of status available (and with a vector),
    in ascending order of the cosine distance between the row's vector
    and the embedding of the query; the score of a hit is
    round(1 - distance, 3); when rounding and 1 - x reverse the order,
    the scores descend.  Every response of status 200 carries exactly
    these hits, and it is the response whenever the engine is initialised
    and no call of the database raises; otherwise the response is an
    error and no row is returned.  The order of ORDER BY is taken
    total. *)
Theorem search_results (g : Globals) (request : Request) (w : World) (query : string) :
  (forall a b, float_leb a b = false -> float_leb b a = true) ->
  lookup (args request) "query" = Some query ->
  query <> EmptyString ->
  let out := search g request w in
  exists ranked : list (Item * float),
    (forall resp : Response,
        fst out = inr resp ->
        status_code resp = 200 ->
        resp =
          jsonify 200
            (PyList
               (map (fun r =>
                       PyDict [("id", PyStr (item_id (fst r)));
                               ("title", PyStr (title (fst r)));
                               ("bio", py_of_text (bio (fst r)));
                               ("category", py_of_text (category (fst r)));
                               ("image_url", PyStr (image_url (fst r)));
                               ("score",
                                PyFloat (py_round (one_minus (snd r)) 3))])
                  ranked)))
    /\ (forall eng : Engine,
          engine g = Some eng ->
          database_answers ->
          exists resp : Response, fst out = inr resp /\ status_code resp = 200)
    /\ (exists resp : Response,
          fst out = inr resp /\ (status_code resp = 200 \/ status_code resp = 500))
    /\ (engine g = None -> ranked = [] /\ fst out = inr engine_not_initialized)
    /\ db (snd out) = db w
    /\ length ranked <= 5
    /\ (forall r, In r ranked ->
          In (fst r) (items (db w))
          /\ status (fst r) = available
          /\ exists v, item_vector (fst r) = Some v
                       /\ snd r = cosine_distance v
                                    (embedding "text-embedding-005" query))
    /\ Sorted (fun a b => float_leb (snd a) (snd b) = true) ranked
    /\ ((forall a b, float_leb a b = true ->
                     float_leb (score_of b) (score_of a) = true) ->
        Sorted (fun a b => float_leb (score_of (snd b)) (score_of (snd a)) = true)
          ranked).
Proof.
  intros Htotal Hq Hne out. subst out.
  destruct (engine g) as [eng |] eqn:Heng.
  - exists (ranked_rows query (db w)).
    destruct (search_cases g eng request w query Heng Hq Hne)
      as [Hdb [_ [_ Hresp]]].
    assert (Hsorted : Sorted (fun a b => float_leb (snd a) (snd b) = true)
                        (ranked_rows query (db w))).
    { unfold ranked_rows. apply firstn_sorted.
      apply (order_by_sorted (fun a b : Item * float => float_leb (snd a) (snd b))).
      intros a b. apply Htotal. }
    split.
    { intros resp Hfst Hok. destruct Hresp as [H | [e H]]; rewrite H in Hfst;
        injection Hfst as <-; [reflexivity | discriminate Hok]. }
    split.
    { intros eng' _ Hquiet.
      rewrite (search_up g eng request w query Heng Hquiet Hq Hne).
      eexists. split; reflexivity. }
    split.
    { destruct Hresp as [H | [e H]]; rewrite H; eexists;
        (split; [reflexivity |]); [left | right]; reflexivity. }
    split; [intros H; discriminate H |].
    split; [exact Hdb |].
    split; [unfold ranked_rows; apply firstn_le_length |].
    split.
    { intros r Hr. unfold ranked_rows in Hr.
      apply firstn_in in Hr. apply order_by_in in Hr.
      apply search_candidates_in in Hr. tauto. }
    split; [exact Hsorted |].
    intros Hanti. revert Hsorted. apply sorted_weaken.
    intros a b. apply Hanti.
  - exists []. unfold search. rewrite Heng. cbn [ret fst snd].
    split; [intros resp H Hok; injection H as <-; discriminate Hok |].
    split; [intros eng' H; discriminate H |].
    split; [eexists; split; [reflexivity | right; reflexivity] |].
    split; [intros _; split; reflexivity |].
    split; [reflexivity |].
    split; [cbn; lia |].
    split; [intros r [] |].
    split; [constructor |].
    intros _. constructor.
Qed.

(** * Further properties of the handlers *)

(** ** A right swipe that answered 200 *)

(** Whatever the database did, a right swipe that answered 200 found the
    database reachable, bound its item_id, and committed the swipe and
    the update; its response is the one of the row it found. *)
Lemma handle_swipe_right_200 (g : Globals) (request : Request) (w : World)
    (resp : Response) :
  swipe_direction request = PyStr "right" ->
  fst (handle_swipe g request w) = inr resp ->
  status_code resp = 200 ->
  (exists eng : Engine, engine g = Some eng)
  /\ resp = match find (id_matches (swipe_item_id request)) (items (db w)) with
            | Some it =>
                match_found (provider_name it) (provider_phone it)
                  (uuid4_str (uuid_draws w))
            | None => no_match (uuid4_str (uuid_draws w))
            end
  /\ exists bound : option string,
       sql_text (swipe_item_id request) = inr bound
       /\ db (snd (handle_swipe g request w))
          = mkDatabase (mark_matched (swipe_item_id request) (items (db w)))
              (swipes (db w)
               ++ [mkSwipe (uuid4_str (uuid_draws w)) bound (Some "right") true])
              (serial (db w)).
Proof.
  intros Hdir.
  destruct (handle_swipe g request w) as [r w'] eqn:Hrun. cbn [fst snd].
  intros Hr Hok. subst r. revert Hrun.
  destruct (engine g) as [eng |] eqn:Heng;
    [| rewrite (handle_swipe_down g request w Heng);
       intros H; injection H as <- <-; discriminate Hok].
  destruct (direction_needs_object request _ Hdir) as [d Hjson].
  assert (Hobj : json_object request) by (eexists; exact Hjson).
  destruct (py_truthy (swipe_item_id request)) eqn:Hid.
  2:{ rewrite (handle_swipe_rejected g eng request w Heng Hobj);
        [| rewrite Hid; reflexivity].
      intros H; injection H as <- <-. discriminate Hok. }
  unfold handle_swipe. rewrite Heng, Hjson.
  destruct (swipe_fields request d Hjson) as [Hd Hi].
  unfold lift, py_get. unfold bind at 1 2 3 4. unfold ret at 1 2 3, uuid4 at 1.
  rewrite Hd, Hi, Hid, Hdir.
  cbn [negb orb py_in_strs existsb py_eq_str String.eqb Ascii.eqb Bool.eqb sql_text].
  unfold insert_swipe, select_provider, update_matched.
  destruct (sql_text (swipe_item_id request)) as [e | bound] eqn:Hbound;
    run_py;
    repeat (match goal with
            | |- context [db_error ?c] => destruct (db_error c)
            end; cbn);
    try (intros H; injection H as <- <-; discriminate Hok);
    rewrite fetchone_filter;
    destruct (find (id_matches (swipe_item_id request)) (items (db w))); cbn;
    repeat (match goal with
            | |- context [db_error ?c] => destruct (db_error c)
            end; cbn);
    try (intros H; injection H as <- <-; discriminate Hok);
    intros H; injection H as <- <-;
    (split; [eexists; reflexivity |]); (split; [reflexivity |]);
    eexists; split; reflexivity.
Qed.
(** ** More on ORDER BY ... LIMIT *)

Lemma insert_by_length {A : Type} (leb : A -> A -> bool) (x : A) (l : list A) :
  length (insert_by leb x l) = S (length l).
Proof.
  induction l as [| y l IH]; cbn; [reflexivity |].
  destruct (leb x y); cbn; [reflexivity | rewrite IH; reflexivity].
Qed.

Lemma order_by_length {A : Type} (leb : A -> A -> bool) (l : list A) :
  length (order_by leb l) = length l.
Proof.
  unfold order_by. induction l as [| x l IH]; cbn [fold_right]; [reflexivity |].
  rewrite insert_by_length, IH. reflexivity.
Qed.

Lemma strongly_sorted_app {A : Type} (R : A -> A -> Prop) (l1 l2 : list A) :
  StronglySorted R (l1 ++ l2) ->
  forall a b, In a l1 -> In b l2 -> R a b.
Proof.
  induction l1 as [| x l1 IH]; cbn; intros Hs a b Ha Hb; [contradiction |].
  inversion Hs as [| y l Hs' Hall]; subst.
  destruct Ha as [<- | Ha].
  - rewrite Forall_forall in Hall. apply Hall. apply in_or_app. right. exact Hb.
  - exact (IH Hs' a b Ha Hb).
Qed.

(** The first [n] rows of an ordered result come before every row that
    is left out. *)
Lemma order_by_limit {A : Type} (leb : A -> A -> bool) (n : nat) (l : list A) :
  (forall a b, leb a b = false -> leb b a = true) ->
  (forall a b c, leb a b = true -> leb b c = true -> leb a c = true) ->
  forall a b,
    In a (firstn n (order_by leb l)) ->
    In b l ->
    ~ In b (firstn n (order_by leb l)) ->
    leb a b = true.
Proof.
  intros Htotal Htrans a b Ha Hb Hout.
  assert (Hs : StronglySorted (fun x y => leb x y = true) (order_by leb l)).
  { apply Sorted_StronglySorted.
    - intros x y z. apply Htrans.
    - apply order_by_sorted. exact Htotal. }
  rewrite <- (firstn_skipn n (order_by leb l)) in Hs.
  apply (strongly_sorted_app _ _ _ Hs a b Ha).
  apply (order_by_in leb) in Hb.
  rewrite <- (firstn_skipn n (order_by leb l)) in Hb.
  apply in_app_or in Hb. destruct Hb as [Hb | Hb]; [contradiction | exact Hb].
Qed.

(** ** The feed *)

Ltac unfold_py :=
  unfold try_except, with_connect, finally, bind, print, engine_connect,
    conn_execute, conn_commit, statement, modify, ret, raise, render_template,
    fetch_items_failed;
  cbv beta.

Ltac frame3 :=
  split; [reflexivity | split; [reflexivity | split; [reflexivity |]]].

Ltac simpl_world := cbn [txn set_txn set_db emit db bucket uuid_draws log fst snd].

Lemma get_items_up (g : Globals) (eng : Engine) (request : Request) (w : World) :
  engine g = Some eng ->
  database_answers ->
  get_items g request w =
  (inr (jsonify 200 (PyList (map feed_json (feed_rows (db w))))),
   mkWorld (db w) None (bucket w) (uuid_draws w)
     (EvCommit :: EvExecute SelectFeed :: EvConnect :: log w)).
Proof.
  intros Heng Hquiet. unfold get_items. rewrite Heng.
  unfold_py. unfold select_feed, feed_rows.
  rewrite ?Hquiet. simpl_world. rewrite ?Hquiet. simpl_world. rewrite ?Hquiet. simpl_world.
  destruct (db w). reflexivity.
Qed.

(** Every run of [get_items], the engine being initialised: the feed, or
    the 500 of an exception; nothing is written. *)
Lemma get_items_cases (g : Globals) (eng : Engine) (request : Request) (w : World) :
  engine g = Some eng ->
  let out := get_items g request w in
  db (snd out) = db w /\ bucket (snd out) = bucket w
  /\ uuid_draws (snd out) = uuid_draws w
  /\ (fst out = inr (jsonify 200 (PyList (map feed_json (feed_rows (db w)))))
      \/ exists e : exn,
           fst out = inr (jsonify 500 (error_report "Failed to fetch items" e))).
Proof.
  intros Heng. cbv zeta.
  destruct (get_items g request w) as [r w'] eqn:Hrun. cbn [fst snd]. revert Hrun.
  unfold get_items. rewrite Heng. unfold_py. unfold select_feed, feed_rows.
  destruct (db_error CallConnect); simpl_world;
    [intros H; injection H as <- <-; frame3; right; eexists; reflexivity |].
  destruct (db_error _); simpl_world;
    [intros H; injection H as <- <-; frame3; right; eexists; reflexivity |].
  destruct (db_error _); simpl_world;
    intros H; injection H as <- <-; frame3.
  - right. eexists. reflexivity.
  - left. reflexivity.
Qed.

Lemma feed_rows_in (d : Database) (it : Item) :
  In it (feed_rows d) -> In it (items d) /\ status it = available.
Proof.
  unfold feed_rows. intros Hin. apply firstn_in in Hin.
  apply order_by_in in Hin. apply filter_In in Hin.
  destruct Hin as [Hin Hst]. split; [exact Hin |].
  destruct (status it); [reflexivity | discriminate Hst].
Qed.

(** X1: GET /api/items shows the available rows of items, newest first,
    cut after 20.  While the engine is initialised, every response of
    status 200 carries exactly these rows, and it is the response
    whenever no call of the database raises (the response is a 500
    otherwise); the number of rows is min(20, number of available rows),
    the creation times descend, every available row that is left out is
    at most as new as every row shown, and the database is as it was. *)
Theorem feed_newest_available (g : Globals) (eng : Engine) (request : Request)
    (w : World) :
  engine g = Some eng ->
  let out := get_items g request w in
  exists rows : list Item,
    (forall resp : Response,
        fst out = inr resp ->
        status_code resp = 200 ->
        resp =
          jsonify 200
            (PyList
               (map (fun it =>
                       PyDict [("id", PyStr (item_id it));
                               ("title", PyStr (title it));
                               ("bio", py_of_text (bio it));
                               ("category", py_of_text (category it));
                               ("image_url", PyStr (image_url it))])
                  rows)))
    /\ (database_answers ->
        exists resp : Response, fst out = inr resp /\ status_code resp = 200)
    /\ (exists resp : Response,
          fst out = inr resp /\ (status_code resp = 200 \/ status_code resp = 500))
    /\ db (snd out) = db w
    /\ length rows
       = Nat.min 20
           (length (filter (fun it => item_status_eqb (status it) available)
                      (items (db w))))
    /\ (forall it, In it rows -> In it (items (db w)) /\ status it = available)
    /\ Sorted (fun a b => created_at b <= created_at a) rows
    /\ (forall a b,
          In a rows -> In b (items (db w)) -> status b = available ->
          ~ In b rows -> created_at b <= created_at a).
Proof.
  intros Heng out. subst out. exists (feed_rows (db w)).
  destruct (get_items_cases g eng request w Heng) as [Hdb [_ [_ Hresp]]].
  set (newest := fun a b : Item => Nat.leb (created_at b) (created_at a)).
  assert (Htotal : forall a b, newest a b = false -> newest b a = true).
  { unfold newest. intros a b H. apply Nat.leb_gt in H. apply Nat.leb_le. lia. }
  split.
  { intros resp Hfst Hok. destruct Hresp as [H | [e H]]; rewrite H in Hfst;
      injection Hfst as <-; [reflexivity | discriminate Hok]. }
  split.
  { intros Hquiet. rewrite (get_items_up g eng request w Heng Hquiet).
    eexists. split; reflexivity. }
  split.
  { destruct Hresp as [H | [e H]]; rewrite H; eexists;
      (split; [reflexivity |]); [left | right]; reflexivity. }
  split; [exact Hdb |].
  split; [unfold feed_rows; rewrite length_firstn, order_by_length; reflexivity |].
  split; [intros it; apply feed_rows_in |].
  split.
  - unfold feed_rows. apply firstn_sorted.
    apply (sorted_weaken (fun a b => newest a b = true)).
    + unfold newest. intros a b H. apply Nat.leb_le. exact H.
    + apply order_by_sorted. exact Htotal.
  - intros a b Ha Hb Hst Hout. apply Nat.leb_le.
    apply (order_by_limit newest 20
             (filter (fun it => item_status_eqb (status it) available)
                (items (db w)))); try assumption.
    + unfold newest. intros x y z Hxy Hyz.
      apply Nat.leb_le in Hxy. apply Nat.leb_le in Hyz. apply Nat.leb_le. lia.
    + apply filter_In. split; [exact Hb |]. rewrite Hst. reflexivity.
Qed.

(** Every run of [home]: nothing is written. *)
Lemma home_keeps (g : Globals) (request : Request) (w : World) :
  let out := home g request w in
  db (snd out) = db w /\ bucket (snd out) = bucket w
  /\ uuid_draws (snd out) = uuid_draws w.
Proof.
  cbv zeta.
  destruct (home g request w) as [r w'] eqn:Hrun. cbn [fst snd]. revert Hrun.
  unfold home. destruct (engine g) as [eng |];
    [| intros H; injection H as <- <-; repeat split].
  unfold_py. unfold select_feed.
  destruct (db_error CallConnect); simpl_world;
    [intros H; injection H as <- <-; repeat split |].
  destruct (db_error _); simpl_world;
    [intros H; injection H as <- <-; repeat split |].
  destruct (db_error _); simpl_world;
    [intros H; injection H as <- <-; repeat split |].
  destruct (render_error _ _); simpl_world;
    intros H; injection H as <- <-; repeat split; destruct (db w); reflexivity.
Qed.

(** ** Routes that only read *)

Lemma search_down_or_empty (g : Globals) (request : Request) (w : World) :
  engine g = None \/ str_truthy (lookup (args request) "query") = false ->
  snd (search g request w) = w.
Proof.
  intros H. unfold search. destruct (engine g); [| reflexivity].
  destruct H as [H | H]; [discriminate H | rewrite H; reflexivity].
Qed.

Lemma str_truthy_some (o : option string) :
  str_truthy o = true -> exists s, o = Some s /\ s <> EmptyString.
Proof.
  destruct o as [s |]; cbn; [| discriminate].
  intros H. exists s. split; [reflexivity |].
  apply negb_true_iff in H. apply String.eqb_neq. exact H.
Qed.

Lemma get_matches_up (g : Globals) (eng : Engine) (request : Request) (w : World)
    (swiper : string) :
  engine g = Some eng ->
  database_answers ->
  lookup (args request) "swiper_id" = Some swiper ->
  swiper <> EmptyString ->
  get_matches g request w =
  (inr (jsonify 200 (PyList (map match_json (match_rows swiper (db w))))),
   mkWorld (db w) None (bucket w) (uuid_draws w)
     (EvExecute SelectMatches :: EvConnect :: log w)).
Proof.
  intros Heng Hquiet Hs Hne. unfold get_matches. rewrite Heng, Hs.
  cbn [str_truthy]. apply String.eqb_neq in Hne. rewrite Hne. cbn [negb].
  unfold_py. unfold match_rows, select_matches.
  rewrite ?Hquiet. simpl_world. rewrite ?Hquiet. simpl_world. reflexivity.
Qed.

(** Every run of [get_matches] with a non-empty swiper_id, the engine
    being initialised: the matches, or the 500 of an exception; nothing
    is written. *)
Lemma get_matches_cases (g : Globals) (eng : Engine) (request : Request) (w : World)
    (swiper : string) :
  engine g = Some eng ->
  lookup (args request) "swiper_id" = Some swiper ->
  swiper <> EmptyString ->
  let out := get_matches g request w in
  db (snd out) = db w /\ bucket (snd out) = bucket w
  /\ uuid_draws (snd out) = uuid_draws w
  /\ (fst out = inr (jsonify 200 (PyList (map match_json (match_rows swiper (db w)))))
      \/ exists e : exn,
           fst out = inr (jsonify 500 (PyDict [("error", PyStr (exn_str e))]))).
Proof.
  intros Heng Hs Hne. cbv zeta.
  destruct (get_matches g request w) as [r w'] eqn:Hrun. cbn [fst snd]. revert Hrun.
  unfold get_matches. rewrite Heng, Hs.
  cbn [str_truthy]. apply String.eqb_neq in Hne. rewrite Hne. cbn [negb].
  unfold_py. unfold match_rows, select_matches.
  destruct (db_error CallConnect); simpl_world;
    [intros H; injection H as <- <-; frame3; right; eexists; reflexivity |].
  destruct (db_error _); simpl_world;
    intros H; injection H as <- <-; frame3.
  - right. eexists. reflexivity.
  - left. reflexivity.
Qed.

(** X3: the four GET routes never write: whatever the state and the
    request, home, get_items, search and get_matches leave the database
    (both tables), the storage bucket and the count of drawn UUIDs as
    they were. *)
Theorem get_routes_read_only (r : route) (g : Globals) (request : Request) (w : World) :
  r <> RouteListItem ->
  r <> RouteSwipe ->
  let w' := snd (dispatch r g request w) in
  db w' = db w /\ bucket w' = bucket w /\ uuid_draws w' = uuid_draws w.
Proof.
  intros Hl Hs w'. subst w'.
  destruct (engine g) as [eng |] eqn:Heng;
    [| rewrite (dispatch_down r g request w Heng); repeat split ].
  destruct r; cbn [dispatch]; try contradiction.
  - exact (home_keeps g request w).
  - destruct (get_items_cases g eng request w Heng) as [H1 [H2 [H3 _]]].
    repeat split; assumption.
  - destruct (str_truthy (lookup (args request) "query")) eqn:Hq.
    + destruct (str_truthy_some _ Hq) as [q [Hsome Hne]].
      destruct (search_cases g eng request w q Heng Hsome Hne) as [H1 [H2 [H3 _]]].
      repeat split; assumption.
    + rewrite (search_down_or_empty g request w (or_intror Hq)). repeat split.
  - destruct (str_truthy (lookup (args request) "swiper_id")) eqn:Hq.
    + destruct (str_truthy_some _ Hq) as [q [Hsome Hne]].
      destruct (get_matches_cases g eng request w q Heng Hsome Hne)
        as [H1 [H2 [H3 _]]].
      repeat split; assumption.
    + unfold get_matches. rewrite Heng, Hq. repeat split.
Qed.

(** ** The closest rows of a search *)

Lemma search_candidates_complete (query : string) (d : Database) (it : Item)
    (v : vector) :
  In it (items d) ->
  status it = available ->
  item_vector it = Some v ->
  ai_if (relevance_prompt (bio it) query) "gemini-3-flash-preview" = true ->
  In (it, cosine_distance v (embedding "text-embedding-005" query))
    (search_candidates query d).
Proof.
  intros Hin Hst Hv Hai. unfold search_candidates. apply in_flat_map.
  exists it. split; [exact Hin |]. rewrite Hv, Hst, Hai. cbn. left. reflexivity.
Qed.

(** X4: while the engine is initialised and no call of the database
    raises, a search with a non-empty query returns min(5, number of rows
    passing the WHERE clause) hits; every hit passed the relevance
    predicate ai.if on its bio and the query; and, the order of distances
    being total and transitive, every available row with a vector that
    passed the predicate but is not among the hits is at least as far
    from the query as every hit. *)
Theorem search_closest_relevant (g : Globals) (eng : Engine) (request : Request)
    (w : World) (query : string) :
  (forall a b, float_leb a b = false -> float_leb b a = true) ->
  (forall a b c, float_leb a b = true -> float_leb b c = true -> float_leb a c = true) ->
  engine g = Some eng ->
  database_answers ->
  lookup (args request) "query" = Some query ->
  query <> EmptyString ->
  let qv := embedding "text-embedding-005" query in
  exists ranked : list (Item * float),
    fst (search g request w)
    = inr (jsonify 200
             (PyList (map (fun r => hit_json (fst r, one_minus (snd r))) ranked)))
    /\ length ranked = Nat.min 5 (length (search_candidates query (db w)))
    /\ (forall r, In r ranked ->
          ai_if (relevance_prompt (bio (fst r)) query) "gemini-3-flash-preview" = true)
    /\ (forall (it : Item) (v : vector) (hit : Item * float),
          In it (items (db w)) ->
          status it = available ->
          item_vector it = Some v ->
          ai_if (relevance_prompt (bio it) query) "gemini-3-flash-preview" = true ->
          ~ In (it, cosine_distance v qv) ranked ->
          In hit ranked ->
          float_leb (snd hit) (cosine_distance v qv) = true).
Proof.
  intros Htotal Htrans Heng Hquiet Hq Hne qv. exists (ranked_rows query (db w)).
  rewrite (search_up g eng request w query Heng Hquiet Hq Hne). cbn [fst].
  split; [reflexivity |].
  split; [unfold ranked_rows; rewrite length_firstn, order_by_length; reflexivity |].
  split.
  - intros r Hr. unfold ranked_rows in Hr. apply firstn_in in Hr.
    apply order_by_in in Hr. apply search_candidates_in in Hr. tauto.
  - intros it v hit Hin Hst Hv Hai Hout Hhit.
    pose proof (search_candidates_complete query (db w) it v Hin Hst Hv Hai) as Hc.
    exact (order_by_limit (fun a b : Item * float => float_leb (snd a) (snd b)) 5
             (search_candidates query (db w))
             (fun a b => Htotal (snd a) (snd b))
             (fun a b c => Htrans (snd a) (snd b) (snd c))
             hit (it, cosine_distance v qv) Hhit Hc Hout).
Qed.

(** ** get_matches *)

Lemma match_rows_spec (swiper : string) (d : Database) (sw : Swipe) (it : Item) :
  In (sw, it) (match_rows swiper d) <->
  In sw (swipes d) /\ In it (items d)
  /\ s_swiper_id sw = swiper /\ s_is_match sw = true
  /\ s_item_id sw = Some (item_id it) /\ status it = matched.
Proof.
  unfold match_rows, select_matches. cbn [fst].
  rewrite in_flat_map. split.
  - intros [s0 [Hs0 Hin]].
    destruct (String.eqb (s_swiper_id s0) swiper) eqn:Hsw; cbn in Hin; [| contradiction].
    destruct (s_is_match s0) eqn:Hm; cbn in Hin; [| contradiction].
    apply in_map_iff in Hin. destruct Hin as [it0 [Heq Hit0]].
    injection Heq as -> ->. apply filter_In in Hit0. destruct Hit0 as [Hit Hcond].
    apply andb_true_iff in Hcond. destruct Hcond as [Hid Hst].
    destruct (s_item_id sw) as [i |] eqn:Hi; [| discriminate Hid].
    apply String.eqb_eq in Hid. apply String.eqb_eq in Hsw. subst i.
    repeat split; try assumption.
    destruct (status it); [discriminate Hst | reflexivity].
  - intros [Hsw [Hit [Hs [Hm [Hi Hst]]]]]. exists sw. split; [exact Hsw |].
    rewrite Hs, String.eqb_refl, Hm. cbn [andb].
    apply in_map_iff. exists it. split; [reflexivity |].
    apply filter_In. split; [exact Hit |].
    rewrite Hi, String.eqb_refl, Hst. reflexivity.
Qed.

(** The rows of the join are as many as the pairs of a swipe and an item
    that pass its conditions. *)
Lemma match_rows_length (swiper : string) (d : Database) :
  length (match_rows swiper d)
  = length
      (filter
         (fun p : Swipe * Item =>
            String.eqb (s_swiper_id (fst p)) swiper && s_is_match (fst p)
            && (match s_item_id (fst p) with
                | Some i => String.eqb i (item_id (snd p))
                | None => false
                end && item_status_eqb (status (snd p)) matched))
         (list_prod (swipes d) (items d))).
Proof.
  unfold match_rows, select_matches. cbn [fst].
  induction (swipes d) as [| s rest IH]; [reflexivity |].
  cbn [flat_map list_prod]. rewrite filter_app, !length_app, IH. f_equal.
  clear IH. induction (items d) as [| it its IHi].
  - cbn. destruct (String.eqb (s_swiper_id s) swiper && s_is_match s); reflexivity.
  - cbn [map filter fst snd].
    destruct (String.eqb (s_swiper_id s) swiper && s_is_match s) eqn:Hs;
      cbn [andb] in *.
    + destruct (match s_item_id s with
                | Some i => String.eqb i (item_id it)
                | None => false
                end && item_status_eqb (status it) matched);
        cbn [map length]; rewrite IHi; reflexivity.
    + exact IHi.
Qed.

(** X5: while the engine is initialised, every response of status 200
    of GET /api/matches with a non-empty swiper_id (and it is the
    response whenever no call of the database raises) lists an entry if
    and only if it is the entry of a swipe and an item such that the
    swipe is by that swiper, has is_match true and names the item, and
    the item has status matched; the entry carries the item_id of the
    swipe and the title, image_url, provider_name and provider_phone of
    the item; and the list has as many entries as there are such pairs
    of a swipe and an item, one entry for each. *)
Theorem get_matches_entries (g : Globals) (eng : Engine) (request : Request)
    (w : World) (swiper : string) :
  engine g = Some eng ->
  lookup (args request) "swiper_id" = Some swiper ->
  swiper <> EmptyString ->
  exists entries : list pyval,
    (forall resp : Response,
        fst (get_matches g request w) = inr resp ->
        status_code resp = 200 ->
        resp = jsonify 200 (PyList entries))
    /\ (database_answers ->
        fst (get_matches g request w) = inr (jsonify 200 (PyList entries)))
    /\ (forall entry : pyval,
         In entry entries <->
         exists (sw : Swipe) (it : Item),
           In sw (swipes (db w)) /\ In it (items (db w))
           /\ s_swiper_id sw = swiper /\ s_is_match sw = true
           /\ s_item_id sw = Some (item_id it) /\ status it = matched
           /\ entry =
                PyDict [("item_id", PyStr (item_id it));
                        ("item_title", PyStr (title it));
                        ("item_image_url", PyStr (image_url it));
                        ("provider_name", PyStr (provider_name it));
                        ("provider_phone", PyStr (provider_phone it))])
    /\ length entries
       = length
           (filter
              (fun p : Swipe * Item =>
                 String.eqb (s_swiper_id (fst p)) swiper && s_is_match (fst p)
                 && (match s_item_id (fst p) with
                     | Some i => String.eqb i (item_id (snd p))
                     | None => false
                     end && item_status_eqb (status (snd p)) matched))
              (list_prod (swipes (db w)) (items (db w)))).
Proof.
  intros Heng Hs Hne.
  exists (map match_json (match_rows swiper (db w))).
  destruct (get_matches_cases g eng request w swiper Heng Hs Hne) as [_ [_ [_ Hresp]]].
  split.
  { intros resp Hfst Hok. destruct Hresp as [H | [e H]]; rewrite H in Hfst;
      injection Hfst as <-; [reflexivity | discriminate Hok]. }
  split.
  { intros Hquiet. rewrite (get_matches_up g eng request w swiper Heng Hquiet Hs Hne).
    reflexivity. }
  split; [| rewrite length_map; apply match_rows_length].
  intros entry. rewrite in_map_iff. split.
  - intros [[sw it] [Heq Hin]]. exists sw, it.
    apply match_rows_spec in Hin.
    destruct Hin as [Hsw [Hit [Hsid [Hm [Hi Hst]]]]].
    repeat (split; [assumption |]).
    subst entry. unfold match_json. cbn [fst snd]. rewrite Hi. reflexivity.
  - intros [sw [it [Hsw [Hit [Hsid [Hm [Hi [Hst Heq]]]]]]]].
    exists (sw, it). split.
    + subst entry. unfold match_json. cbn [fst snd]. rewrite Hi. reflexivity.
    + apply match_rows_spec. repeat (split; [assumption |]). assumption.
Qed.

(** X6: GET /api/matches without swiper_id, or with an empty one,
    leaves the world as it was (no connection, no statement); it answers
    400 with the error [swiper_id is required] while the engine is
    initialised, and 500 when it is not. *)
Theorem get_matches_without_swiper (g : Globals) (request : Request) (w : World) :
  str_truthy (lookup (args request) "swiper_id") = false ->
  let out := get_matches g request w in
  snd out = w
  /\ (forall eng : Engine,
        engine g = Some eng ->
        fst out = inr (jsonify 400 (PyDict [("error", PyStr "swiper_id is required")])))
  /\ (engine g = None ->
      fst out =
        inr (jsonify 500 (PyDict [("error", PyStr "Database engine not initialized.")]))).
Proof.
  intros Hq out. subst out. unfold get_matches.
  destruct (engine g) as [eng |]; [rewrite Hq |]; cbn;
    (split; [reflexivity | split; [intros ? H | intros H]]);
    try discriminate H; reflexivity.
Qed.

(** ** A right swipe, then the reading routes *)

Lemma available_after_mark (id : pyval) (rows : list Item) (it : Item) :
  In it (mark_matched id rows) ->
  status it = available ->
  id_matches id it = false /\ In it rows.
Proof.
  unfold mark_matched. intros Hin Hst. apply in_map_iff in Hin.
  destruct Hin as [it0 [Heq Hin0]].
  destruct (id_matches id it0) eqn:E; subst it.
  - discriminate Hst.
  - split; assumption.
Qed.

(** X7: after a right swipe that answered 200, the feed of /api/items
    shows no row of the swiped item_id: every response of status 200 of
    /api/items (and it is the response whenever no call of the database
    raises) lists only rows that were available rows of the table before
    the swipe, with another item_id. *)
Theorem swiped_item_leaves_feed (g : Globals) (request request' : Request)
    (w : World) (resp : Response) :
  swipe_direction request = PyStr "right" ->
  fst (handle_swipe g request w) = inr resp ->
  status_code resp = 200 ->
  let after := snd (handle_swipe g request w) in
  exists rows : list Item,
    (forall resp' : Response,
        fst (get_items g request' after) = inr resp' ->
        status_code resp' = 200 ->
        resp' = jsonify 200 (PyList (map feed_json rows)))
    /\ (database_answers ->
        fst (get_items g request' after) = inr (jsonify 200 (PyList (map feed_json rows))))
    /\ forall it, In it rows ->
         id_matches (swipe_item_id request) it = false
         /\ In it (items (db w)) /\ status it = available.
Proof.
  intros Hdir Hrun Hok after. subst after.
  destruct (handle_swipe_right_200 g request w resp Hdir Hrun Hok)
    as [[eng Heng] [_ [bound [_ Hdb]]]].
  exists (feed_rows (db (snd (handle_swipe g request w)))).
  destruct (get_items_cases g eng request' (snd (handle_swipe g request w)) Heng)
    as [_ [_ [_ Hresp]]].
  split.
  { intros resp' Hfst Hok'. destruct Hresp as [H | [e H]]; rewrite H in Hfst;
      injection Hfst as <-; [reflexivity | discriminate Hok']. }
  split.
  { intros Hquiet. rewrite (get_items_up g eng request' _ Heng Hquiet). reflexivity. }
  intros it Hin. apply feed_rows_in in Hin. rewrite Hdb in Hin. cbn [items] in Hin.
  destruct Hin as [Hin Hst].
  destruct (available_after_mark _ _ it Hin Hst) as [Hno Hold].
  repeat split; assumption.
Qed.

(** X8: after a right swipe that answered 200, no search returns a row
    of the swiped item_id: every response of status 200 of /api/search
    with a non-empty query (and it is the response whenever no call of
    the database raises) lists only rows of another item_id. *)
Theorem swiped_item_leaves_search (g : Globals) (request request' : Request)
    (w : World) (query : string) (resp : Response) :
  swipe_direction request = PyStr "right" ->
  fst (handle_swipe g request w) = inr resp ->
  status_code resp = 200 ->
  lookup (args request') "query" = Some query ->
  query <> EmptyString ->
  let after := snd (handle_swipe g request w) in
  exists ranked : list (Item * float),
    (forall resp' : Response,
        fst (search g request' after) = inr resp' ->
        status_code resp' = 200 ->
        resp' =
          jsonify 200
            (PyList (map (fun r => hit_json (fst r, one_minus (snd r))) ranked)))
    /\ (database_answers ->
        fst (search g request' after)
        = inr (jsonify 200
                 (PyList (map (fun r => hit_json (fst r, one_minus (snd r))) ranked))))
    /\ forall r, In r ranked ->
         id_matches (swipe_item_id request) (fst r) = false
         /\ In (fst r) (items (db w)).
Proof.
  intros Hdir Hrun Hok Hq Hne after. subst after.
  destruct (handle_swipe_right_200 g request w resp Hdir Hrun Hok)
    as [[eng Heng] [_ [bound [_ Hdb]]]].
  exists (ranked_rows query (db (snd (handle_swipe g request w)))).
  destruct (search_cases g eng request' (snd (handle_swipe g request w)) query
              Heng Hq Hne) as [_ [_ [_ Hresp]]].
  split.
  { intros resp' Hfst Hok'. destruct Hresp as [H | [e H]]; rewrite H in Hfst;
      injection Hfst as <-; [reflexivity | discriminate Hok']. }
  split.
  { intros Hquiet. rewrite (search_up g eng request' _ query Heng Hquiet Hq Hne).
    reflexivity. }
  intros r Hin. unfold ranked_rows in Hin. apply firstn_in in Hin.
  apply order_by_in in Hin. apply search_candidates_in in Hin.
  rewrite Hdb in Hin. cbn [items] in Hin.
  destruct Hin as [Hin [Hst _]].
  exact (available_after_mark _ _ (fst r) Hin Hst).
Qed.

(** X9: after a right swipe that answered 200 on an item_id that a row
    of items has, GET /api/matches with the swiper_id of that swipe (a
    non-empty string) lists that row, with its item_id, title, image_url,
    provider_name and provider_phone, in every response of status 200;
    and 200 is its status whenever no call of the database raises. *)
Theorem right_swipe_listed_in_matches (g : Globals) (request request' : Request)
    (w : World) (it : Item) (resp : Response) :
  swipe_direction request = PyStr "right" ->
  fst (handle_swipe g request w) = inr resp ->
  status_code resp = 200 ->
  In it (items (db w)) ->
  id_matches (swipe_item_id request) it = true ->
  uuid4_str (uuid_draws w) <> EmptyString ->
  lookup (args request') "swiper_id" = Some (uuid4_str (uuid_draws w)) ->
  let after := snd (handle_swipe g request w) in
  exists entries : list pyval,
    (forall resp' : Response,
        fst (get_matches g request' after) = inr resp' ->
        status_code resp' = 200 ->
        resp' = jsonify 200 (PyList entries))
    /\ (database_answers ->
        fst (get_matches g request' after) = inr (jsonify 200 (PyList entries)))
    /\ In (PyDict [("item_id", PyStr (item_id it));
                   ("item_title", PyStr (title it));
                   ("item_image_url", PyStr (image_url it));
                   ("provider_name", PyStr (provider_name it));
                   ("provider_phone", PyStr (provider_phone it))])
         entries.
Proof.
  intros Hdir Hrun Hok Hin Hm Hne Hs after. subst after.
  destruct (handle_swipe_right_200 g request w resp Hdir Hrun Hok)
    as [[eng Heng] [_ [bound [Hbound Hdb]]]].
  rewrite (id_matches_bound _ _ Hm) in Hbound. injection Hbound as <-.
  exists (map match_json
            (match_rows (uuid4_str (uuid_draws w))
               (db (snd (handle_swipe g request w))))).
  destruct (get_matches_cases g eng request' (snd (handle_swipe g request w)) _
              Heng Hs Hne) as [_ [_ [_ Hresp]]].
  split.
  { intros resp' Hfst Hok'. destruct Hresp as [H | [e H]]; rewrite H in Hfst;
      injection Hfst as <-; [reflexivity | discriminate Hok']. }
  split.
  { intros Hquiet. rewrite (get_matches_up g eng request' _ _ Heng Hquiet Hs Hne).
    reflexivity. }
  apply in_map_iff.
  exists (mkSwipe (uuid4_str (uuid_draws w)) (Some (item_id it)) (Some "right") true,
          set_status matched it).
  split; [reflexivity |].
  apply match_rows_spec. rewrite Hdb. cbn [swipes items].
  split; [apply in_or_app; right; left; reflexivity |].
  split.
  - unfold mark_matched. apply in_map_iff. exists it. rewrite Hm.
    split; [reflexivity | exact Hin].
  - repeat split.
Qed.

(** ** Listing: failures and effects *)

(** Every run of [list_item]: it answers, and either it succeeded and
    appended one row, or it failed and left the database alone. *)
Lemma list_item_outcome (g : Globals) (request : Request) (w : World) :
  exists resp : Response,
    fst (list_item g request w) = inr resp
    /\ ((exists (row : Item) (profile : pyval),
            db (snd (list_item g request w))
            = mkDatabase (items (db w) ++ [row]) (swipes (db w)) (S (serial (db w)))
            /\ item_id row = new_item_id (serial (db w))
            /\ provider_name row = form_get (form request) "provider_name" "Anonymous"
            /\ provider_phone row = form_get (form request) "provider_phone" "No Phone"
            /\ status row = available
            /\ resp =
                 jsonify 200
                   (PyDict [("status", PyStr "success");
                            ("item_id", PyStr (item_id row));
                            ("image_url", PyStr (image_url row));
                            ("profile", profile)]))
        \/ ((status_code resp = 400 \/ status_code resp = 500)
            /\ db (snd (list_item g request w)) = db w)).
Proof.
  destruct (list_item g request w) as [r w'] eqn:Hrun. cbn [fst snd]. revert Hrun.
  unfold list_item.
  destruct (engine g) as [eng |];
    [| intros H; injection H as <- <-; eexists;
       split; [reflexivity | right; split; [right |]; reflexivity]].
  destruct (lookup (files request) "image") as [image_file |];
    [| intros H; injection H as <- <-; eexists;
       split; [reflexivity | right; split; [left |]; reflexivity]].
  unfold upload_to_gcs, models_generate_content, insert_item.
  destruct (storage_client g);
    [| intros H; injection H as <- <-; eexists;
       split; [reflexivity | right; split; [right |]; reflexivity]].
  run_py.
  destruct (upload_error _ _ _); cbn;
    [intros H; injection H as <- <-; eexists;
     split; [reflexivity | right; split; [right |]; reflexivity] |].
  destruct (genai_client g); cbn;
    [| intros H; injection H as <- <-; eexists;
       split; [reflexivity | right; split; [right |]; reflexivity]].
  destruct (generate_content _ _ _) as [e | response_text]; cbn;
    [intros H; injection H as <- <-; eexists;
     split; [reflexivity | right; split; [right |]; reflexivity] |].
  destruct (json_loads response_text) as [e | profile]; cbn;
    [intros H; injection H as <- <-; eexists;
     split; [reflexivity | right; split; [right |]; reflexivity] |].
  destruct profile; cbn;
    repeat (split_call; cbn);
    intros H; injection H as <- <-;
    try (eexists; split; [reflexivity | right; split; [right |]; reflexivity]).
  eexists. split; [reflexivity |]. left.
  eexists. eexists. repeat split.
Qed.

(** X10: POST /api/list-item always answers, with status 200, 400 or
    500 (no exception leaves the handler, whatever the upload, the model
    and the parser do); it never touches the swipes table; and unless the
    status is 200 the items table is as it was. *)
Theorem list_item_writes_only_on_success (g : Globals) (request : Request) (w : World) :
  let out := list_item g request w in
  exists resp : Response,
    fst out = inr resp
    /\ (status_code resp = 200 \/ status_code resp = 400 \/ status_code resp = 500)
    /\ swipes (db (snd out)) = swipes (db w)
    /\ (status_code resp <> 200 -> db (snd out) = db w).
Proof.
  cbv zeta. destruct (list_item_outcome g request w) as [resp [Hresp Hcases]].
  exists resp. split; [exact Hresp |].
  destruct Hcases as [[row [profile [Hdb [_ [_ [_ [_ Heq]]]]]]] | [Hcode Hdb]].
  - subst resp. rewrite Hdb. split; [left; reflexivity |].
    split; [reflexivity |]. intros H. exfalso. apply H. reflexivity.
  - rewrite Hdb. split; [right; exact Hcode |].
    split; [reflexivity |]. intros _. reflexivity.
Qed.

(** X11: when the upload to the bucket raises, POST /api/list-item
    answers 500 with the error [GCS Upload Failed] and the text of the
    exception (and no traceback); the model is not called, no connection
    is opened, and database and bucket are as they were: the only trace
    is the attempted upload. *)
Theorem list_item_upload_failure (g : Globals) (eng : Engine) (sc : StorageClient)
    (request : Request) (w : World) (image_file : FileStorage) (e : exn) :
  engine g = Some eng ->
  storage_client g = Some sc ->
  lookup (files request) "image" = Some image_file ->
  let blob := blob_name_of (uuid4_str (uuid_draws w)) (filename image_file) in
  upload_error (BUCKET_NAME g) blob (content image_file) = Some e ->
  let out := list_item g request w in
  fst out =
    inr (jsonify 500
           (PyDict [("error", PyStr "GCS Upload Failed"); ("details", PyStr (exn_str e))]))
  /\ db (snd out) = db w
  /\ bucket (snd out) = bucket w
  /\ log (snd out) = EvUpload (BUCKET_NAME g) blob (content image_file) :: log w.
Proof.
  intros Heng Hsc Hfile blob Hup out. subst out blob.
  unfold list_item. rewrite Heng, Hfile.
  unfold upload_to_gcs. rewrite Hsc. run_py.
  unfold blob_name_of in Hup. cbn in Hup. rewrite Hup. cbn.
  repeat split.
Qed.

(** X12: when the upload succeeded and the listing then fails (the
    model raises, its answer is not JSON, or is not a JSON object), POST
    /api/list-item answers 500 with the error [Operation Failed], the
    database is as it was, and the uploaded blob stays in the bucket. *)
Theorem list_item_orphaned_blob (g : Globals) (eng : Engine) (sc : StorageClient)
    (request : Request) (w : World) (image_file : FileStorage) (resp : Response) :
  engine g = Some eng ->
  storage_client g = Some sc ->
  lookup (files request) "image" = Some image_file ->
  let blob := blob_name_of (uuid4_str (uuid_draws w)) (filename image_file) in
  upload_error (BUCKET_NAME g) blob (content image_file) = None ->
  let out := list_item g request w in
  fst out = inr resp ->
  status_code resp <> 200 ->
  bucket (snd out) = (blob, content image_file) :: bucket w
  /\ db (snd out) = db w
  /\ exists e : exn,
       resp =
         jsonify 500
           (PyDict [("error", PyStr "Operation Failed");
                    ("details", PyStr (exn_str e));
                    ("traceback", PyStr (format_exc e))]).
Proof.
  intros Heng Hsc Hfile blob Hup out. subst out blob.
  unfold list_item. rewrite Heng, Hfile.
  unfold upload_to_gcs, models_generate_content, insert_item. rewrite Hsc. run_py.
  unfold blob_name_of in Hup. cbn in Hup. rewrite Hup. cbn.
  destruct (genai_client g); cbn;
    [| intros H _; injection H as <-; repeat split; eexists; reflexivity].
  destruct (generate_content _ _ _) as [e | response_text]; cbn;
    [intros H _; injection H as <-; repeat split; eexists; reflexivity |].
  destruct (json_loads response_text) as [e | profile]; cbn;
    [intros H _; injection H as <-; repeat split; eexists; reflexivity |].
  destruct profile; cbn;
    repeat (split_call; cbn);
    try (intros H _; injection H as <-; repeat split; eexists; reflexivity).
  intros H Hcode. injection H as <-. exfalso. apply Hcode. reflexivity.
Qed.

Lemma find_last {A : Type} (p : A -> bool) (l : list A) (x : A) :
  (forall a, In a l -> p a = false) -> p x = true -> find p (l ++ [x]) = Some x.
Proof.
  intros Hl Hx. induction l as [| a l IH]; cbn.
  - rewrite Hx. reflexivity.
  - rewrite (Hl a (or_introl eq_refl)). apply IH.
    intros b Hb. apply Hl. right. exact Hb.
Qed.

(** X13: listing, then a right swipe.  After a successful POST
    /api/list-item whose new item_id is non-empty and is the item_id of
    no earlier row, a right swipe on the item_id of the response that
    answers 200 (as it does whenever no call of the database raises)
    answers is_match true with the provider_name and provider_phone of
    the listing form (Anonymous and No Phone when the fields were
    absent). *)
Theorem listing_then_right_swipe (g : Globals) (request request' : Request)
    (w w' : World) (resp : Response) :
  list_item g request w = (inr resp, w') ->
  status_code resp = 200 ->
  let new_id := new_item_id (serial (db w)) in
  new_id <> EmptyString ->
  (forall it, In it (items (db w)) -> item_id it <> new_id) ->
  swipe_item_id request' = PyStr new_id ->
  swipe_direction request' = PyStr "right" ->
  let matched_response :=
    jsonify 200
      (PyDict [("is_match", PyBool true);
               ("provider_name",
                PyStr (form_get (form request) "provider_name" "Anonymous"));
               ("provider_phone",
                PyStr (form_get (form request) "provider_phone" "No Phone"));
               ("swiper_id", PyStr (uuid4_str (uuid_draws w')))]) in
  (exists (url : string) (profile : pyval),
      resp =
        jsonify 200
          (PyDict [("status", PyStr "success"); ("item_id", PyStr new_id);
                   ("image_url", PyStr url); ("profile", profile)]))
  /\ (forall resp' : Response,
        fst (handle_swipe g request' w') = inr resp' ->
        status_code resp' = 200 ->
        resp' = matched_response)
  /\ (database_answers -> fst (handle_swipe g request' w') = inr matched_response).
Proof.
  intros Hrun Hok new_id Hne Hfresh Hid Hdir matched_response.
  destruct (list_item_outcome g request w) as [resp0 [Hresp Hcases]].
  rewrite Hrun in Hresp, Hcases. cbn [fst snd] in Hresp, Hcases.
  injection Hresp as <-.
  destruct Hcases as [[row [profile [Hdb [Hrow [Hname [Hphone [_ Heq]]]]]]] | [Hcode _]];
    [| destruct Hcode as [H | H]; rewrite Hok in H; discriminate H].
  fold new_id in Hrow.
  assert (Hfind : find (id_matches (swipe_item_id request')) (items (db w')) = Some row).
  { rewrite Hdb, Hid. cbn [items]. apply find_last.
    - intros it Hin. unfold id_matches. cbn [sql_text].
      apply String.eqb_neq. exact (Hfresh it Hin).
    - unfold id_matches. cbn [sql_text]. rewrite Hrow. apply String.eqb_refl. }
  split; [exists (image_url row), profile; rewrite <- Hrow; exact Heq |].
  split.
  - intros resp' Hswipe Hok'.
    destruct (handle_swipe_right_200 g request' w' resp' Hdir Hswipe Hok')
      as [_ [Hresp' _]].
    rewrite Hfind in Hresp'. rewrite Hresp'. subst matched_response.
    rewrite Hname, Hphone. reflexivity.
  - intros Hquiet. destruct (engine g) as [eng |] eqn:Heng.
    + assert (Htruthy : py_truthy (swipe_item_id request') = true).
      { rewrite Hid. cbn. apply negb_true_iff. apply String.eqb_neq. exact Hne. }
      assert (Hbound : sql_text (swipe_item_id request') = inr (Some new_id))
        by (rewrite Hid; reflexivity).
      rewrite (handle_swipe_right g eng request' w' _ Heng
                 (direction_needs_object request' _ Hdir) Hquiet Htruthy Hdir Hbound).
      cbn [fst]. rewrite Hfind. subst matched_response.
      rewrite Hname, Hphone. reflexivity.
    + unfold list_item in Hrun. rewrite Heng in Hrun.
      injection Hrun as <- _. discriminate Hok.
Qed.

(** ** What no route does to the tables *)

Lemma tables_evolve_refl (d : Database) : tables_evolve d d.
Proof.
  split; [exists []; split; [symmetry; apply app_nil_r | cbn; lia] |].
  split; [| lia].
  exists (items d), []. split; [symmetry; apply app_nil_r |].
  split; [| cbn; lia].
  induction (items d) as [| it l IH]; constructor; [left; reflexivity | exact IH].
Qed.

Lemma rows_kept_refl (rows : list Item) : Forall2 row_kept rows rows.
Proof.
  induction rows as [| it l IH]; constructor; [left; reflexivity | exact IH].
Qed.

Lemma mark_matched_kept (id : pyval) (rows : list Item) :
  Forall2 row_kept rows (mark_matched id rows).
Proof.
  induction rows as [| it rows IH]; cbn; constructor; [| exact IH].
  destruct (id_matches id it); [right | left]; reflexivity.
Qed.

Lemma handle_swipe_evolves (g : Globals) (request : Request) (w : World) :
  tables_evolve (db w) (db (snd (handle_swipe g request w))).
Proof.
  destruct (handle_swipe_tables g request w) as [H | [H | H]].
  - rewrite H. apply tables_evolve_refl.
  - destruct H as [swiper [bound [_ H]]]. rewrite H.
    split; [eexists; split; [reflexivity | cbn; lia] |]. split; [| cbn; lia].
    cbn [items]. exists (items (db w)), [].
    split; [symmetry; apply app_nil_r |]. split; [apply rows_kept_refl | cbn; lia].
  - destruct H as [swiper [bound [_ H]]]. rewrite H.
    split; [eexists; split; [reflexivity | cbn; lia] |]. split; [| cbn; lia].
    cbn [items]. eexists. exists []. split; [symmetry; apply app_nil_r |].
    split; [| cbn; lia].
    exact (mark_matched_kept (swipe_item_id request) (items (db w))).
Qed.

Lemma get_route_keeps_db (r : route) (g : Globals) (request : Request) (w : World) :
  r <> RouteListItem -> r <> RouteSwipe ->
  db (snd (dispatch r g request w)) = db w.
Proof.
  intros Hl Hs.
  destruct (engine g) as [eng |] eqn:Heng;
    [| rewrite (dispatch_down r g request w Heng); reflexivity ].
  destruct r; cbn [dispatch]; try contradiction.
  - destruct (home_keeps g request w) as [H _]. exact H.
  - destruct (get_items_cases g eng request w Heng) as [H _]. exact H.
  - destruct (str_truthy (lookup (args request) "query")) eqn:Hq.
    + destruct (str_truthy_some _ Hq) as [q [Hsome Hne]].
      destruct (search_cases g eng request w q Heng Hsome Hne) as [H _]. exact H.
    + rewrite (search_down_or_empty g request w (or_intror Hq)). reflexivity.
  - destruct (str_truthy (lookup (args request) "swiper_id")) eqn:Hq.
    + destruct (str_truthy_some _ Hq) as [q [Hsome Hne]].
      destruct (get_matches_cases g eng request w q Heng Hsome Hne) as [H _]. exact H.
    + unfold get_matches. rewrite Heng, Hq. reflexivity.
Qed.

(** X14: no route deletes or rewrites a row.  Whatever the route, the
    state and the request, afterwards the swipes table is the old one
    with at most one row appended, and the items table holds the old
    rows in their order, each unchanged or changed only in its status,
    now matched, followed by at most one new row. *)
Theorem routes_keep_rows (r : route) (g : Globals) (request : Request) (w : World) :
  let d := db w in
  let d' := db (snd (dispatch r g request w)) in
  (exists new_swipes,
      swipes d' = swipes d ++ new_swipes /\ length new_swipes <= 1)
  /\ (exists kept new_items,
         items d' = kept ++ new_items
         /\ Forall2 (fun before after =>
                       after = before \/ after = set_status matched before)
              (items d) kept
         /\ length new_items <= 1).
Proof.
  cbv zeta.
  assert (H : tables_evolve (db w) (db (snd (dispatch r g request w)))).
  { destruct r;
      try (rewrite get_route_keeps_db by discriminate; apply tables_evolve_refl).
    - cbn [dispatch].
      destruct (list_item_outcome g request w) as [resp [_ Hcases]].
      destruct Hcases as [[row [profile [Hdb _]]] | [_ Hdb]]; rewrite Hdb.
      + split; [exists []; split; [symmetry; apply app_nil_r | cbn; lia] |].
        split; [| cbn; lia]. cbn [items].
        exists (items (db w)), [row]. split; [reflexivity |]. split; [| cbn; lia].
        destruct (tables_evolve_refl (db w)) as [_ [[kept [new [Heq [Hk Hlen]]]] _]].
        destruct new as [| x new]; [| exfalso].
        * rewrite app_nil_r in Heq. rewrite <- Heq in Hk. exact Hk.
        * apply (f_equal (@length Item)) in Heq. rewrite length_app in Heq.
          apply Forall2_length in Hk. cbn in Heq. lia.
      + apply tables_evolve_refl.
    - cbn [dispatch]. apply handle_swipe_evolves. }
  destruct H as [Hs [Hi _]]. split; [exact Hs | exact Hi].
Qed.

(** ** Start of the process: when the engine is there *)

(** X15: after the start of the process the engine is initialised
    exactly when the three constructions succeeded and DATABASE_URL is a
    non-empty string; its URL is then DATABASE_URL, and the generative
    and the storage client are initialised too.  A failure to construct
    either client thus leaves the engine at None. *)
Theorem startup_engine_iff (env : list (string * string)) (w : World) :
  exists (g : Globals) (w' : World),
    startup env w = (inr g, w')
    /\ (forall eng : Engine,
          engine g = Some eng <->
          genai_Client_error (lookup env "GEMINI_API_KEY") = None
          /\ storage_Client_error = None
          /\ exists url : string,
               lookup env "DATABASE_URL" = Some url
               /\ url <> EmptyString
               /\ create_engine_error url = None
               /\ eng = {| engine_url := url; pool_pre_ping := true |})
    /\ (engine g <> None -> genai_client g <> None /\ storage_client g <> None).
Proof.
  unfold startup, initialize_clients.
  cbn [API_KEY DATABASE_URL BUCKET_NAME genai_client storage_client engine].
  destruct (genai_Client_error (lookup env "GEMINI_API_KEY")) as [e1 |].
  { eexists. eexists. split; [reflexivity |]. cbn [engine]. split.
    - intros eng. split; [intros H; discriminate H |].
      intros [H _]. discriminate H.
    - intros H. exfalso. apply H. reflexivity. }
  destruct storage_Client_error as [e2 |].
  { eexists. eexists. split; [reflexivity |]. cbn [engine]. split.
    - intros eng. split; [intros H; discriminate H |].
      intros [_ [H _]]. discriminate H.
    - intros H. exfalso. apply H. reflexivity. }
  destruct (lookup env "DATABASE_URL") as [url |].
  2:{ eexists. eexists. split; [reflexivity |]. cbn [engine]. split.
      - intros eng. split; [intros H; discriminate H |].
        intros [_ [_ [u [H _]]]]. discriminate H.
      - intros H. exfalso. apply H. reflexivity. }
  destruct (String.eqb url EmptyString) eqn:Hurl.
  { eexists. eexists. split; [reflexivity |]. cbn [engine]. split.
    - intros eng. split; [intros H; discriminate H |].
      intros [_ [_ [u [H [Hne _]]]]]. injection H as <-.
      apply String.eqb_eq in Hurl. contradiction.
    - intros H. exfalso. apply H. reflexivity. }
  destruct (create_engine_error url) as [e3 |] eqn:Hce.
  { eexists. eexists. split; [reflexivity |]. cbn [engine]. split.
    - intros eng. split; [intros H; discriminate H |].
      intros [_ [_ [u [H [_ [Hc _]]]]]]. injection H as <-.
      rewrite Hce in Hc. discriminate Hc.
    - intros H. exfalso. apply H. reflexivity. }
  eexists. eexists. split; [reflexivity |].
  cbn [engine genai_client storage_client]. split.
  - intros eng. split.
    + intros H. injection H as <-. split; [reflexivity |]. split; [reflexivity |].
      exists url. apply String.eqb_neq in Hurl. repeat split; assumption.
    + intros [_ [_ [u [H [_ [_ Heq]]]]]]. injection H as <-. subst eng. reflexivity.
  - intros _. split; intros H; discriminate H.
Qed.

(** ** The stored image *)

(** X16: whenever the upload succeeds, POST /api/list-item leaves in the
    bucket exactly one new blob, named items/<uuid>-<filename> and holding
    the bytes of the image part, whatever the later steps do; and a
    response of status 200 carries the public URL of that very blob. *)
Theorem list_item_stores_image (g : Globals) (eng : Engine) (sc : StorageClient)
    (request : Request) (w : World) (image_file : FileStorage) :
  engine g = Some eng ->
  storage_client g = Some sc ->
  lookup (files request) "image" = Some image_file ->
  let blob := blob_name_of (uuid4_str (uuid_draws w)) (filename image_file) in
  upload_error (BUCKET_NAME g) blob (content image_file) = None ->
  let out := list_item g request w in
  bucket (snd out) = (blob, content image_file) :: bucket w
  /\ forall resp : Response,
       fst out = inr resp ->
       status_code resp = 200 ->
       exists (id : string) (profile : pyval),
         resp =
           jsonify 200
             (PyDict [("status", PyStr "success"); ("item_id", PyStr id);
                      ("image_url", PyStr (public_url (BUCKET_NAME g) blob));
                      ("profile", profile)]).
Proof.
  intros Heng Hsc Hfile blob Hup out. subst out blob.
  unfold list_item. rewrite Heng, Hfile.
  unfold upload_to_gcs, models_generate_content, insert_item. rewrite Hsc. run_py.
  unfold blob_name_of in Hup. cbn in Hup. rewrite Hup. cbn.
  destruct (genai_client g); cbn;
    [| split; [reflexivity | intros resp H Hok; injection H as <-; discriminate Hok]].
  destruct (generate_content _ _ _) as [e | response_text]; cbn;
    [split; [reflexivity | intros resp H Hok; injection H as <-; discriminate Hok] |].
  destruct (json_loads response_text) as [e | profile]; cbn;
    [split; [reflexivity | intros resp H Hok; injection H as <-; discriminate Hok] |].
  destruct profile; cbn;
    repeat (split_call; cbn);
    try (split; [reflexivity | intros resp H Hok; injection H as <-; discriminate Hok]).
  split; [reflexivity |].
  intros resp H _. injection H as <-. eexists. eexists. reflexivity.
Qed.

(** ** Swipes that are not right swipes *)

Lemma get_items_by_items (g : Globals) (request : Request) (w1 w2 : World) :
  items (db w1) = items (db w2) ->
  fst (get_items g request w1) = fst (get_items g request w2).
Proof.
  intros Heq. unfold get_items. destruct (engine g) as [eng |]; [| reflexivity].
  unfold_py. unfold select_feed.
  destruct (db_error CallConnect); simpl_world; [reflexivity |].
  destruct (db_error _); simpl_world; [reflexivity |].
  destruct (db_error _); simpl_world; [reflexivity |].
  rewrite Heq. reflexivity.
Qed.

Lemma search_by_items (g : Globals) (request : Request) (w1 w2 : World) :
  items (db w1) = items (db w2) ->
  fst (search g request w1) = fst (search g request w2).
Proof.
  intros Heq. unfold search. destruct (engine g) as [eng |]; [| reflexivity].
  destruct (negb (str_truthy (lookup (args request) "query"))); [reflexivity |].
  unfold_py. unfold select_search, search_candidates.
  destruct (db_error CallConnect); simpl_world; [reflexivity |].
  destruct (db_error _); simpl_world; [reflexivity |].
  rewrite Heq. reflexivity.
Qed.

(** X17: a swipe whose direction is not the string right (a left swipe,
    or one that is rejected) changes nothing that the feed or a search
    shows: after it, /api/items and /api/search answer every request as
    they would have before it. *)
Theorem other_swipes_keep_feed_and_search (g : Globals) (request request' : Request)
    (w : World) :
  swipe_direction request <> PyStr "right" ->
  let after := snd (handle_swipe g request w) in
  fst (get_items g request' after) = fst (get_items g request' w)
  /\ fst (search g request' after) = fst (search g request' w).
Proof.
  intros Hdir after. subst after.
  pose proof (handle_swipe_not_right_items g request w Hdir) as Hitems.
  split.
  - exact (get_items_by_items g request' _ w Hitems).
  - exact (search_by_items g request' _ w Hitems).
Qed.

End App.


Arguments PyNone {float}.
Arguments PyBool {float} b.
Arguments PyInt {float} z.
Arguments PyFloat {float} f.
Arguments PyStr {float} s.
Arguments PyList {float} l.
Arguments PyDict {float} d.
Arguments mkItem {vector}.
Arguments mkDatabase {vector}.
Arguments mkWorld {vector}.
Arguments mkRequest {float}.
Arguments mkResponse {float}.
Arguments jsonify {float}.
Arguments Json {float} v.
Arguments Html {float} template context.
Arguments match_found {float}.
Arguments no_match {float}.
Arguments set_status {vector}.
Arguments id_matches {float vector svc}.
Arguments py_truthy {float vector svc}.
Arguments item_id {vector}.
Arguments owner_id {vector}.
Arguments provider_name {vector}.
Arguments provider_phone {vector}.
Arguments title {vector}.
Arguments bio {vector}.
Arguments category {vector}.
Arguments image_url {vector}.
Arguments item_vector {vector}.
Arguments created_at {vector}.
Arguments files {float}.
Arguments form {float}.
Arguments args {float}.
Arguments json {float}.
Arguments status_code {float}.
Arguments payload {float}.
Arguments py_of_text {float}.
Arguments serial {vector}.
Arguments txn {vector}.
Arguments uuid_draws {vector}.
Arguments items {vector}.
Arguments swipes {vector}.
Arguments db {vector}.
Arguments log {vector}.
Arguments bucket {vector}.
Arguments status {vector}.
Arguments startup {float vector svc}.
Arguments dispatch {float vector svc}.
Arguments home {float vector svc}.
Arguments get_items {float vector svc}.
Arguments list_item {float vector svc}.
Arguments search {float vector svc}.
Arguments handle_swipe {float vector svc}.
Arguments get_matches {float vector svc}.
Arguments error_report {float vector svc}.
Arguments database_answers {float vector} svc.
Arguments json_object {float}.
Arguments feed_json {float vector}.
Arguments hit_json {float vector svc}.
Arguments sql_text {float vector svc}.
Arguments swipe_field {float}.
Arguments swipe_direction {float}.
Arguments swipe_item_id {float}.

(** * A small deployment

    Distances and scores are counted in thousandths, vectors are
    integers, the embedding of a text is its length. *)

Module Demo.

Definition digit (n : nat) : string := String (Ascii.ascii_of_nat (48 + n)) EmptyString.

Definition demo_profile (text : string) : pyval Z :=
  PyDict [("bio", PyStr text); ("category", PyStr "Kitchen");
          ("tags", PyList [PyStr "toaster"; PyStr "retro"])].

Definition cannot_adapt : exn := Exception "ProgrammingError" "can't adapt type 'dict'".

Definition connection_refused : exn := Exception "OperationalError" "connection refused".

(** The collaborators of a deployment, given what its storage service
    answers to an upload, what its database answers to a call and what
    the rendering of a template answers.  The driver binds numbers and
    booleans as NULL here and refuses lists and objects. *)
Definition deployment (upload : option exn) (database : db_call Z -> option exn)
    (render : option exn) : Services Z Z := {|
  float_nonzero := fun x => negb (Z.eqb x 0);
  py_round := fun x _ => x;
  uuid4_str := fun n => String.append "uuid-" (digit n);
  format_exc := fun e => String.append "Traceback: " (exn_str e);
  json_loads := fun text =>
    if String.eqb text EmptyString
    then inl (Exception "JSONDecodeError" "Expecting value")
    else inr (demo_profile text);
  genai_Client_error := fun _ => None;
  storage_Client_error := None;
  create_engine_error := fun _ => None;
  upload_error := fun _ _ _ => upload;
  public_url := fun _ name => String.append "https://storage.example/" name;
  generate_content := fun _ image _ =>
    match image with
    | [] => inl (Exception "ClientError" "empty image")
    | _ :: _ => inr "Two slots, zero drama."
    end;
  adapt_other := fun v =>
    match v with
    | PyList _ | PyDict _ => inl cannot_adapt
    | _ => inr None
    end;
  db_error := database;
  new_item_id := fun n => String.append "item-" (digit n);
  embedding := fun _ text => Z.of_nat (String.length text);
  cosine_distance := fun a b => Z.abs (a - b);
  float_leb := Z.leb;
  one_minus := fun x => (1000 - x)%Z;
  ai_if := fun p _ => match p with Some _ => true | None => false end;
  render_error := fun _ _ => render
|}.

(** The deployment in which everything answers. *)
#[local] Instance services : Services Z Z := deployment None (fun _ => None) None.

(** The same, with a storage service that refuses every upload. *)
Definition storage_refuses : Services Z Z :=
  deployment (Some (Exception "Forbidden" "403 bucket is read-only")) (fun _ => None)
    None.

(** The same, with a database that cannot be reached. *)
Definition database_down : Services Z Z :=
  deployment None
    (fun c => match c with CallConnect _ => Some connection_refused | _ => None end)
    None.

(** The same, without the template app.html (the source tree as it
    stands has no templates directory). *)
Definition template_not_found : exn := Exception "TemplateNotFound" "app.html".

Definition template_missing : Services Z Z :=
  deployment None (fun _ => None) (Some template_not_found).

Lemma services_answer : database_answers services.
Proof. intros c. reflexivity. Qed.

Definition toaster : Item Z :=
  mkItem "item-0" "owner-0" "Asha" "555-0100" "Toaster" (Some "Two slots")
    (Some "Kitchen") "https://storage.example/items/a-toaster.jpg" available (Some 9%Z) 0.

Definition lamp : Item Z :=
  mkItem "item-1" "owner-1" "Bram" "555-0101" "Lamp" (Some "Bright idea")
    (Some "Lighting") "https://storage.example/items/b-lamp.jpg" matched (Some 4%Z) 1.

Definition chair : Item Z :=
  mkItem "item-2" "owner-2" "Chen" "555-0102" "Chair" (Some "Sit with me")
    (Some "Furniture") "https://storage.example/items/c-chair.jpg" available (Some 5%Z) 2.

Definition world0 : World Z :=
  mkWorld (mkDatabase [toaster; lamp; chair] [] 3) None [] 0 [].

(** The environment of a process started without DATABASE_URL, one
    started with it, and the variables of the module after each start. *)
Definition env_without_url : list (string * string) :=
  [("GEMINI_API_KEY", "key"); ("GCS_BUCKET_NAME", "loop")].

Definition env_with_url : list (string * string) :=
  ("DATABASE_URL", "postgresql://db/loop") :: env_without_url.

Definition the_engine : Engine :=
  {| engine_url := "postgresql://db/loop"; pool_pre_ping := true |}.

Definition g_down : Globals :=
  mkGlobals (Some "key") None (Some "loop")
    (Some {| client_api_key := Some "key" |}) (Some StorageHandle) None.

Definition g_up : Globals :=
  mkGlobals (Some "key") (Some "postgresql://db/loop") (Some "loop")
    (Some {| client_api_key := Some "key" |}) (Some StorageHandle) (Some the_engine).

Example startup_with_url : fst (startup env_with_url world0) = inr g_up.
Proof. reflexivity. Qed.

(** [request.json] of a request without a JSON body. *)
Definition no_json : exn + pyval Z :=
  inl (Exception "UnsupportedMediaType" "415 Unsupported Media Type").

Definition swipe_request (item_id direction : pyval Z) : Request Z :=
  mkRequest [] [] [] (inr (PyDict [("direction", direction); ("item_id", item_id)])).

Definition search_request (query : string) : Request Z :=
  mkRequest [] [] [("query", query)] no_json.

Definition empty_request : Request Z := mkRequest [] [] [] no_json.

(** A swipe whose body is the empty object, and one whose body is the
    empty list. *)
Definition empty_object_swipe : Request Z := mkRequest [] [] [] (inr (PyDict [])).
Definition list_body_swipe : Request Z := mkRequest [] [] [] (inr (PyList [])).

Definition listing_request : Request Z :=
  mkRequest [("image", {| filename := "kettle.jpg"; content := [x00; x01] |})]
    [("item_title", "Kettle"); ("provider_name", "Dana")] [] no_json.

Definition engine_down_response : Response Z :=
  jsonify 500 (PyDict [("error", PyStr "Database engine not initialized.")]).

(** The response of a swipe whose database call raised. *)
Definition swipe_failed (e : exn) : Response Z :=
  jsonify 500
    (PyDict [("error", PyStr "Database error during swipe");
             ("details", PyStr (exn_str e));
             ("traceback", PyStr (String.append "Traceback: " (exn_str e)))]).

Definition right_on_toaster : Request Z := swipe_request (PyStr "item-0") (PyStr "right").
Definition left_on_toaster : Request Z := swipe_request (PyStr "item-0") (PyStr "left").
Definition right_on_unknown : Request Z := swipe_request (PyStr "item-9") (PyStr "right").
Definition left_on_empty_id : Request Z := swipe_request (PyStr EmptyString) (PyStr "left").

(** Swipes whose item_id is the object {"a": 1}. *)
Definition object_id : pyval Z := PyDict [("a", PyInt 1)].
Definition right_on_object : Request Z := swipe_request object_id (PyStr "right").
Definition left_on_object : Request Z := swipe_request object_id (PyStr "left").

(** ** Runs of the handlers *)

Example run_right_on_toaster :
  handle_swipe g_up right_on_toaster world0 =
  (inr (match_found "Asha" "555-0100" "uuid-0"),
   mkWorld
     (mkDatabase [set_status matched toaster; lamp; chair]
        [mkSwipe "uuid-0" (Some "item-0") (Some "right") true] 3)
     None [] 1
     [EvCommit; EvExecute UpdateMatched; EvExecute SelectProvider;
      EvExecute InsertSwipe; EvConnect]).
Proof. reflexivity. Qed.

Example run_search_lamp :
  fst (search g_up (search_request "lamp") world0) =
  inr (jsonify 200
         (PyList
            [PyDict [("id", PyStr "item-2"); ("title", PyStr "Chair");
                     ("bio", PyStr "Sit with me"); ("category", PyStr "Furniture");
                     ("image_url", PyStr "https://storage.example/items/c-chair.jpg");
                     ("score", PyFloat 999%Z)];
             PyDict [("id", PyStr "item-0"); ("title", PyStr "Toaster");
                     ("bio", PyStr "Two slots"); ("category", PyStr "Kitchen");
                     ("image_url", PyStr "https://storage.example/items/a-toaster.jpg");
                     ("score", PyFloat 995%Z)]])).
Proof. reflexivity. Qed.

Example run_feed :
  fst (get_items g_up empty_request world0) =
  inr (jsonify 200
         (PyList
            [PyDict [("id", PyStr "item-2"); ("title", PyStr "Chair");
                     ("bio", PyStr "Sit with me"); ("category", PyStr "Furniture");
                     ("image_url", PyStr "https://storage.example/items/c-chair.jpg")];
             PyDict [("id", PyStr "item-0"); ("title", PyStr "Toaster");
                     ("bio", PyStr "Two slots"); ("category", PyStr "Kitchen");
                     ("image_url", PyStr "https://storage.example/items/a-toaster.jpg")]])).
Proof. reflexivity. Qed.

Definition kettle_url : string := "https://storage.example/items/uuid-0-kettle.jpg".

Definition kettle : Item Z :=
  mkItem "item-3" "uuid-1" "Dana" "No Phone" "Kettle" (Some "Two slots, zero drama.")
    (Some "Kitchen") kettle_url available (Some 29%Z) 3.

Definition kettle_response : Response Z :=
  jsonify 200
    (PyDict [("status", PyStr "success"); ("item_id", PyStr "item-3");
             ("image_url", PyStr kettle_url);
             ("profile", demo_profile "Two slots, zero drama.")]).

Definition kettle_world : World Z :=
  mkWorld (mkDatabase [toaster; lamp; chair; kettle] [] 4) None
    [("items/uuid-0-kettle.jpg", [x00; x01])] 2
    [EvCommit; EvExecute InsertItem; EvConnect;
     EvGenerate "gemini-3-flash-preview" [x00; x01] prompt;
     EvUpload (Some "loop") "items/uuid-0-kettle.jpg" [x00; x01]].

Example run_listing : list_item g_up listing_request world0 = (inr kettle_response, kettle_world).
Proof. reflexivity. Qed.

Example run_matches :
  fst (get_matches g_up (mkRequest [] [] [("swiper_id", "uuid-0")] no_json)
         (snd (handle_swipe g_up right_on_toaster world0))) =
  inr (jsonify 200
         (PyList
            [PyDict [("item_id", PyStr "item-0"); ("item_title", PyStr "Toaster");
                     ("item_image_url",
                      PyStr "https://storage.example/items/a-toaster.jpg");
                     ("provider_name", PyStr "Asha");
                     ("provider_phone", PyStr "555-0100")]])).
Proof. reflexivity. Qed.

Example run_swipe_database_down :
  @handle_swipe Z Z database_down g_up right_on_toaster world0 =
  (inr (swipe_failed connection_refused),
   mkWorld (db world0) None [] 1
     [EvPrint "Swipe error: Traceback: connection refused"; EvConnect]).
Proof. reflexivity. Qed.

Example run_swipe_object_id :
  handle_swipe g_up right_on_object world0 =
  (inr (swipe_failed cannot_adapt),
   mkWorld (db world0) None [] 1
     [EvPrint "Swipe error: Traceback: can't adapt type 'dict'"; EvConnect]).
Proof. reflexivity. Qed.

Example run_swipe_list_body :
  handle_swipe g_up list_body_swipe world0 =
  (inl (Exception "AttributeError" "'list' object has no attribute 'get'"), world0).
Proof. reflexivity. Qed.

Example run_search_database_down :
  @search Z Z database_down g_up (search_request "lamp") world0 =
  (inr (jsonify 500 (PyDict [("error", PyStr "connection refused")])),
   mkWorld (db world0) None [] 0
     [EvPrint "Error during search: Traceback: connection refused"; EvConnect]).
Proof. reflexivity. Qed.

Example run_home_template_missing :
  fst (@home Z Z template_missing g_up empty_request world0) =
  inr (jsonify 500
         (PyDict [("error", PyStr "Failed to fetch items");
                  ("details", PyStr "app.html");
                  ("traceback", PyStr "Traceback: app.html")])).
Proof. reflexivity. Qed.
(** ** The process started without DATABASE_URL *)

(** C6 fails as stated: started without DATABASE_URL the import of the
    module returns (nothing is fatal), the engine is None, and the
    application answers requests, here GET /api/items, with status 500. *)
Lemma startup_without_url_serves :
  lookup env_without_url "DATABASE_URL" = None
  /\ fst (startup env_without_url world0) = inr g_down
  /\ (forall e : exn, fst (startup env_without_url world0) <> inl e)
  /\ dispatch RouteItems g_down empty_request world0 = (inr engine_down_response, world0).
Proof.
  split; [reflexivity |]. split; [reflexivity |].
  split; [intros e H; discriminate H | reflexivity].
Qed.

Lemma startup_without_database_url_witness :
  exists (g : Globals) (w' : World Z),
    startup env_without_url world0 = (inr g, w')
    /\ engine g = None
    /\ db w' = db world0
    /\ forall (r : route) (request : Request Z) (w0 : World Z),
         dispatch r g request w0 = (inr engine_down_response, w0).
Proof.
  exact (startup_without_database_url Z Z env_without_url world0 eq_refl).
Defined.

(** ** Right swipes *)

(** C1 fails as stated, in three ways.  On the existing item item-0, a
    right swipe answers 500 without provider data and leaves the item
    available when the process was started without DATABASE_URL, and
    also when the engine is initialised but the database cannot be
    reached.  And with everything answering, a right swipe whose truthy
    item_id is an object, which the driver cannot bind, answers 500 and
    inserts nothing. *)
Lemma swipe_right_counterexample :
  let down := handle_swipe g_down right_on_toaster world0 in
  let refused := @handle_swipe Z Z database_down g_up right_on_toaster world0 in
  let unbound := handle_swipe g_up right_on_object world0 in
  find (id_matches (PyStr "item-0")) (items (db world0)) = Some toaster
  /\ status toaster = available
  /\ fst down = inr engine_down_response
  /\ db (snd down) = db world0
  /\ fst refused = inr (swipe_failed connection_refused)
  /\ db (snd refused) = db world0
  /\ py_truthy object_id = true
  /\ fst unbound = inr (swipe_failed cannot_adapt)
  /\ db (snd unbound) = db world0.
Proof. cbv zeta. repeat (split; [reflexivity |]). reflexivity. Qed.

Lemma swipe_right_outcome_witness :
  let out := handle_swipe g_up right_on_toaster world0 in
  fst out = inr (match_found "Asha" "555-0100" "uuid-0")
  /\ In (set_status matched toaster) (items (db (snd out)))
  /\ (forall r, In r (items (db (snd out))) ->
                id_matches (PyStr "item-0") r = true -> status r = matched).
Proof.
  cbv zeta.
  destruct (swipe_right_outcome Z Z g_up the_engine right_on_toaster world0
              (Some "item-0") eq_refl services_answer eq_refl eq_refl eq_refl)
    as [Hfound _].
  destruct (Hfound toaster eq_refl) as [Hresp [_ [Hin Hall]]].
  split; [exact Hresp |]. split; [exact Hin | exact Hall].
Defined.

(** C9 fails as stated: two right swipes in sequence on the existing
    item item-0 both answer 500, and the item is still available after
    them, when the process was started without DATABASE_URL, and also
    when the engine is initialised but the database cannot be reached. *)
Lemma swipe_right_twice_counterexample :
  let first := handle_swipe g_down right_on_toaster world0 in
  let second := handle_swipe g_down right_on_toaster (snd first) in
  let first' := @handle_swipe Z Z database_down g_up right_on_toaster world0 in
  let second' := @handle_swipe Z Z database_down g_up right_on_toaster (snd first') in
  find (id_matches (PyStr "item-0")) (items (db world0)) = Some toaster
  /\ fst first = inr engine_down_response
  /\ fst second = inr engine_down_response
  /\ find (id_matches (PyStr "item-0")) (items (db (snd second))) = Some toaster
  /\ fst first' = inr (swipe_failed connection_refused)
  /\ fst second' = inr (swipe_failed connection_refused)
  /\ find (id_matches (PyStr "item-0")) (items (db (snd second'))) = Some toaster
  /\ status toaster <> matched.
Proof.
  cbv zeta. repeat (split; [reflexivity |]). intros H. discriminate H.
Qed.

Lemma swipe_right_twice_witness :
  let first := handle_swipe g_up right_on_toaster world0 in
  let second := handle_swipe g_up right_on_toaster (snd first) in
  fst first = inr (match_found "Asha" "555-0100" "uuid-0")
  /\ fst second = inr (match_found "Asha" "555-0100" "uuid-1")
  /\ items (db (snd second)) = items (db (snd first))
  /\ In (set_status matched toaster) (items (db (snd second)))
  /\ (forall r, In r (items (db (snd second))) ->
                id_matches (PyStr "item-0") r = true -> status r = matched).
Proof.
  exact (swipe_right_twice Z Z g_up the_engine right_on_toaster world0 toaster
           eq_refl services_answer eq_refl eq_refl eq_refl).
Defined.

(** C10 fails as stated, in three ways.  A right swipe on an item_id
    that no row has inserts no row into swipes and answers 500, not
    is_match false, when the process was started without DATABASE_URL,
    when the database cannot be reached, and when the item_id is an
    object that the driver cannot bind. *)
Lemma swipe_right_unknown_counterexample :
  let down := handle_swipe g_down right_on_unknown world0 in
  let refused := @handle_swipe Z Z database_down g_up right_on_unknown world0 in
  let unbound := handle_swipe g_up right_on_object world0 in
  find (id_matches (PyStr "item-9")) (items (db world0)) = None
  /\ find (id_matches object_id) (items (db world0)) = None
  /\ swipes (db (snd down)) = []
  /\ fst down = inr engine_down_response
  /\ swipes (db (snd refused)) = []
  /\ fst refused = inr (swipe_failed connection_refused)
  /\ py_truthy object_id = true
  /\ swipes (db (snd unbound)) = []
  /\ fst unbound = inr (swipe_failed cannot_adapt).
Proof. cbv zeta. repeat (split; [reflexivity |]). reflexivity. Qed.

Lemma swipe_right_unknown_item_witness :
  let out := handle_swipe g_up right_on_unknown world0 in
  swipes (db (snd out)) = [mkSwipe "uuid-0" (Some "item-9") (Some "right") true]
  /\ fst out =
       inr (jsonify 200 (PyDict [("is_match", PyBool false); ("swiper_id", PyStr "uuid-0")])).
Proof.
  exact (swipe_right_unknown_item Z Z g_up the_engine right_on_unknown world0
           (Some "item-9") eq_refl services_answer eq_refl eq_refl eq_refl eq_refl).
Defined.

(** ** Left swipes *)

(** C8 fails as stated, in three ways.  A left swipe answers 500, not
    is_match false with a swiper_id, when the process was started
    without DATABASE_URL, when the database cannot be reached, and when
    its truthy item_id is an object that the driver cannot bind (the
    items are untouched each time, as claimed). *)
Lemma swipe_left_counterexample :
  let down := handle_swipe g_down left_on_toaster world0 in
  let refused := @handle_swipe Z Z database_down g_up left_on_toaster world0 in
  let unbound := handle_swipe g_up left_on_object world0 in
  fst down = inr engine_down_response
  /\ fst refused = inr (swipe_failed connection_refused)
  /\ py_truthy object_id = true
  /\ fst unbound = inr (swipe_failed cannot_adapt)
  /\ swipes (db (snd unbound)) = []
  /\ items (db (snd down)) = items (db world0)
  /\ items (db (snd refused)) = items (db world0)
  /\ items (db (snd unbound)) = items (db world0).
Proof. cbv zeta. repeat (split; [reflexivity |]). reflexivity. Qed.

Lemma swipe_left_outcome_witness :
  let out := handle_swipe g_up left_on_toaster world0 in
  items (db (snd out)) = [toaster; lamp; chair]
  /\ fst out =
       inr (jsonify 200 (PyDict [("is_match", PyBool false); ("swiper_id", PyStr "uuid-0")]))
  /\ swipes (db (snd out)) = [mkSwipe "uuid-0" (Some "item-0") (Some "left") false].
Proof.
  cbv zeta.
  destruct (swipe_left_outcome Z Z g_up left_on_toaster world0 eq_refl eq_refl)
    as [Hitems Hup].
  split; [exact Hitems |].
  exact (Hup the_engine (Some "item-0") eq_refl services_answer eq_refl).
Defined.

(** ** Validation of a swipe *)

(** C4 fails as stated, in four ways.  A swipe without item_id answers
    500, not 400, when the process was started without DATABASE_URL; and
    when its body is a list, the AttributeError of [data.get] leaves the
    handler, which answers nothing itself.  With the engine initialised, a
    swipe whose item_id is present but empty, with direction left, answers
    400 and inserts no row; and a well-formed left swipe answers 500 and
    inserts no row when the database cannot be reached. *)
Lemma swipe_validation_counterexample :
  swipe_item_id empty_object_swipe = PyNone
  /\ fst (handle_swipe g_down empty_object_swipe world0) = inr engine_down_response
  /\ status_code engine_down_response = 500
  /\ swipe_item_id list_body_swipe = PyNone
  /\ fst (handle_swipe g_up list_body_swipe world0)
     = inl (Exception "AttributeError" "'list' object has no attribute 'get'")
  /\ swipe_item_id left_on_empty_id = PyStr EmptyString
  /\ swipe_direction left_on_empty_id = PyStr "left"
  /\ fst (handle_swipe g_up left_on_empty_id world0)
     = inr (jsonify 400 (PyDict [("error", PyStr "Invalid swipe data")]))
  /\ swipes (db (snd (handle_swipe g_up left_on_empty_id world0))) = []
  /\ fst (@handle_swipe Z Z database_down g_up left_on_toaster world0)
     = inr (swipe_failed connection_refused)
  /\ swipes (db (snd (@handle_swipe Z Z database_down g_up left_on_toaster world0))) = [].
Proof. repeat (split; [reflexivity |]). reflexivity. Qed.

Lemma swipe_validation_witness :
  (let out := handle_swipe g_up left_on_empty_id world0 in
   fst out = inr (jsonify 400 (PyDict [("error", PyStr "Invalid swipe data")]))
   /\ db (snd out) = db world0)
  /\ (let out := handle_swipe g_up right_on_toaster world0 in
      (exists resp, fst out = inr resp /\ status_code resp = 200)
      /\ exists dir_text : string,
           @PyStr Z dir_text = PyStr "right"
           /\ swipes (db (snd out))
              = [mkSwipe "uuid-0" (Some "item-0") (Some dir_text) true]).
Proof.
  cbv zeta. split.
  - destruct (swipe_validation Z Z g_up the_engine left_on_empty_id world0 eq_refl)
      as [Hbad _].
    + eexists. reflexivity.
    + exact (Hbad (or_introl eq_refl)).
  - destruct (swipe_validation Z Z g_up the_engine right_on_toaster world0 eq_refl)
      as [_ Hgood].
    + eexists. reflexivity.
    + destruct (Hgood (Some "item-0") eq_refl eq_refl services_answer eq_refl)
        as [Hresp [dir_text [Hdir Hswipes]]].
      split; [exact Hresp |]. exists dir_text. split; [symmetry; exact Hdir | exact Hswipes].
Defined.

(** ** Requests that stop before any call *)

(** C5 fails as stated: in the process started without DATABASE_URL a
    listing submission without an image part answers 500, not 400. *)
Lemma list_item_without_image_engine_down :
  lookup (files empty_request) "image" = None
  /\ list_item g_down empty_request world0 = (inr engine_down_response, world0)
  /\ status_code engine_down_response = 500.
Proof. repeat (split; [reflexivity |]). reflexivity. Qed.

Lemma list_item_without_image_witness :
  let out := list_item g_up empty_request world0 in
  snd out = world0
  /\ fst out = inr (jsonify 400 (PyDict [("error", PyStr "No image provided")])).
Proof.
  cbv zeta.
  destruct (list_item_without_image Z Z g_up empty_request world0 eq_refl)
    as [Hworld [Hup _]].
  split; [exact Hworld | exact (Hup the_engine eq_refl)].
Defined.

(** C7 fails as stated: in the process started without DATABASE_URL a
    search without query parameter answers the 500 error, not the empty
    list with status 200. *)
Lemma search_without_query_engine_down :
  lookup (args empty_request) "query" = None
  /\ search g_down empty_request world0 = (inr engine_down_response, world0)
  /\ engine_down_response <> jsonify 200 (PyList []).
Proof.
  split; [reflexivity |]. split; [reflexivity |]. intros H. discriminate H.
Qed.

Lemma search_without_query_witness :
  let out := search g_up (search_request EmptyString) world0 in
  snd out = world0 /\ fst out = inr (jsonify 200 (PyList [])).
Proof.
  cbv zeta.
  destruct (search_without_query Z Z g_up (search_request EmptyString) world0 eq_refl)
    as [Hworld [Hup _]].
  split; [exact Hworld | exact (Hup the_engine eq_refl)].
Defined.

(** ** Listing and search *)

Lemma list_item_success_witness :
  items (db kettle_world) = items (db world0) ++ [kettle]
  /\ swipes (db kettle_world) = swipes (db world0)
  /\ kettle_response =
       jsonify 200
         (PyDict [("status", PyStr "success"); ("item_id", PyStr (item_id kettle));
                  ("image_url", PyStr kettle_url);
                  ("profile", demo_profile "Two slots, zero drama.")]).
Proof.
  assert (Hrun : list_item g_up listing_request world0
                 = (inr kettle_response, kettle_world)) by reflexivity.
  destruct (list_item_success Z Z g_up listing_request world0 kettle_world
              kettle_response Hrun eq_refl)
    as [image_file [response_text [d [bio_text [category_text
         [Hfile [Hgen [Hjson [Hbio [Hcat [Hitems [Hswipes _]]]]]]]]]]]].
  injection Hfile as <-. injection Hgen as <-. injection Hjson as <-.
  injection Hbio as <-. injection Hcat as <-.
  split; [exact Hitems |]. split; [exact Hswipes | reflexivity].
Defined.

Lemma search_results_witness :
  let out := search g_up (search_request "lamp") world0 in
  exists ranked : list (Item Z * Z),
    fst out =
      inr (jsonify 200
             (PyList
                (map (fun r =>
                        PyDict [("id", PyStr (item_id (fst r)));
                                ("title", PyStr (title (fst r)));
                                ("bio", py_of_text (bio (fst r)));
                                ("category", py_of_text (category (fst r)));
                                ("image_url", PyStr (image_url (fst r)));
                                ("score", PyFloat (1000 - snd r)%Z)])
                   ranked)))
    /\ length ranked <= 5
    /\ (forall r, In r ranked ->
                  In (fst r) (items (db world0)) /\ status (fst r) = available)
    /\ Sorted (fun a b => Z.leb (snd a) (snd b) = true) ranked.
Proof.
  cbv zeta.
  destruct (search_results Z Z g_up (search_request "lamp") world0 "lamp") as
    [ranked [Hhits [Hup [_ [_ [_ [Hlen [Hrows [Hsorted _]]]]]]]]].
  - intros a b H. apply Z.leb_gt in H. apply Z.leb_le. lia.
  - reflexivity.
  - intros H. discriminate H.
  - exists ranked.
    destruct (Hup the_engine eq_refl services_answer) as [resp [Hresp Hok]].
    split; [rewrite Hresp; f_equal; exact (Hhits resp Hresp Hok) |].
    split; [exact Hlen |]. split; [| exact Hsorted].
    intros r Hr. destruct (Hrows r Hr) as [Hin [Hst _]]. split; assumption.
Defined.


(** ** Further runs: feed, matches, listing *)

Definition world_after_swipe : World Z := snd (handle_swipe g_up right_on_toaster world0).

Definition matches_request : Request Z :=
  mkRequest [] [] [("swiper_id", "uuid-0")] no_json.

Definition right_on_kettle : Request Z := swipe_request (PyStr "item-3") (PyStr "right").

(** A submission whose image is empty: the model of this deployment
    refuses it. *)
Definition blank_listing_request : Request Z :=
  mkRequest [("image", {| filename := "blank.jpg"; content := [] |})] [] [] no_json.

Lemma feed_newest_available_witness :
  exists rows : list (Item Z),
    fst (get_items g_up empty_request world0) =
      inr (jsonify 200
             (PyList
                (map (fun it =>
                        PyDict [("id", PyStr (item_id it));
                                ("title", PyStr (title it));
                                ("bio", py_of_text (bio it));
                                ("category", py_of_text (category it));
                                ("image_url", PyStr (image_url it))])
                   rows)))
    /\ length rows = 2
    /\ (forall it, In it rows -> In it [toaster; lamp; chair] /\ status it = available)
    /\ Sorted (fun a b => created_at b <= created_at a) rows.
Proof.
  destruct (feed_newest_available Z Z g_up the_engine empty_request world0 eq_refl)
    as [rows [Hresp [Hup [_ [_ [Hlen [Hrows [Hsorted _]]]]]]]].
  exists rows.
  destruct (Hup services_answer) as [resp [Hrun Hstatus]].
  split; [rewrite Hrun; f_equal; exact (Hresp resp Hrun Hstatus) |].
  split; [exact Hlen |]. split; [exact Hrows | exact Hsorted].
Defined.

Lemma get_routes_read_only_witness :
  let w' := snd (dispatch RouteSearch g_up (search_request "lamp") world0) in
  db w' = db world0 /\ bucket w' = bucket world0 /\ uuid_draws w' = uuid_draws world0.
Proof.
  apply (get_routes_read_only Z Z RouteSearch g_up (search_request "lamp") world0);
    intros H; discriminate H.
Defined.

Lemma search_closest_relevant_witness :
  exists ranked : list (Item Z * Z),
    fst (search g_up (search_request "lamp") world0)
    = inr (jsonify 200
             (PyList
                (map (fun r => @hit_json Z Z services (fst r, (1000 - snd r)%Z)) ranked)))
    /\ length ranked = 2
    /\ (forall hit, In hit ranked -> ~ In (toaster, 5%Z) ranked ->
                    Z.leb (snd hit) 5 = true).
Proof.
  destruct (search_closest_relevant Z Z g_up the_engine (search_request "lamp")
              world0 "lamp") as [ranked [Hresp [Hlen [_ Hclosest]]]].
  - intros a b H. apply Z.leb_gt in H. apply Z.leb_le. lia.
  - intros a b c Hab Hbc. apply Z.leb_le in Hab. apply Z.leb_le in Hbc.
    apply Z.leb_le. lia.
  - reflexivity.
  - exact services_answer.
  - reflexivity.
  - intros H. discriminate H.
  - exists ranked. split; [exact Hresp |]. split; [exact Hlen |].
    intros hit Hhit Hout.
    exact (Hclosest toaster 9%Z hit (or_introl eq_refl) eq_refl eq_refl eq_refl
             Hout Hhit).
Defined.

Lemma get_matches_entries_witness :
  exists entries : list (pyval Z),
    fst (get_matches g_up matches_request world_after_swipe)
    = inr (jsonify 200 (PyList entries))
    /\ In (PyDict [("item_id", PyStr "item-0"); ("item_title", PyStr "Toaster");
                   ("item_image_url",
                    PyStr "https://storage.example/items/a-toaster.jpg");
                   ("provider_name", PyStr "Asha");
                   ("provider_phone", PyStr "555-0100")])
         entries
    /\ ~ In (PyDict [("item_id", PyStr "item-1"); ("item_title", PyStr "Lamp");
                     ("item_image_url",
                      PyStr "https://storage.example/items/b-lamp.jpg");
                     ("provider_name", PyStr "Bram");
                     ("provider_phone", PyStr "555-0101")])
           entries
    /\ length entries = 1.
Proof.
  destruct (get_matches_entries Z Z g_up the_engine matches_request world_after_swipe
              "uuid-0" eq_refl eq_refl) as [entries [_ [Hresp [Hiff Hcount]]]].
  - intros H. discriminate H.
  - exists entries. split; [exact (Hresp services_answer) |].
    split; [| split; [| exact Hcount]].
    + apply Hiff.
      exists (mkSwipe "uuid-0" (Some "item-0") (Some "right") true),
             (set_status matched toaster).
      split; [left; reflexivity |]. split; [left; reflexivity |].
      split; [reflexivity |]. split; [reflexivity |]. split; [reflexivity |].
      split; reflexivity.
    + intros Hin. apply Hiff in Hin.
      destruct Hin as [sw [it [Hsw [_ [_ [_ [Hid [_ Hentry]]]]]]]].
      destruct Hsw as [<- | []]. cbn in Hid.
      injection Hentry as Hitem _. rewrite <- Hitem in Hid. discriminate Hid.
Defined.

Lemma get_matches_without_swiper_witness :
  let out := get_matches g_up empty_request world0 in
  snd out = world0
  /\ fst out = inr (jsonify 400 (PyDict [("error", PyStr "swiper_id is required")])).
Proof.
  cbv zeta.
  destruct (get_matches_without_swiper Z Z g_up empty_request world0 eq_refl)
    as [Hworld [Hup _]].
  split; [exact Hworld | exact (Hup the_engine eq_refl)].
Defined.

Lemma swiped_item_leaves_feed_witness :
  exists rows : list (Item Z),
    fst (get_items g_up empty_request world_after_swipe)
    = inr (jsonify 200 (PyList (map (@feed_json Z Z) rows)))
    /\ forall it, In it rows -> id_matches (PyStr "item-0") it = false.
Proof.
  destruct (swiped_item_leaves_feed Z Z g_up right_on_toaster empty_request
              world0 (match_found "Asha" "555-0100" "uuid-0"))
    as [rows [_ [Hresp Hrows]]].
  - reflexivity.
  - reflexivity.
  - reflexivity.
  - exists rows. split; [exact (Hresp services_answer) |].
    intros it Hin. destruct (Hrows it Hin) as [Hno _]. exact Hno.
Defined.

Lemma swiped_item_leaves_search_witness :
  exists ranked : list (Item Z * Z),
    fst (search g_up (search_request "lamp") world_after_swipe)
    = inr (jsonify 200
             (PyList (map (fun r => @hit_json Z Z services (fst r, (1000 - snd r)%Z)) ranked)))
    /\ forall r, In r ranked -> id_matches (PyStr "item-0") (fst r) = false.
Proof.
  destruct (swiped_item_leaves_search Z Z g_up right_on_toaster
              (search_request "lamp") world0 "lamp"
              (match_found "Asha" "555-0100" "uuid-0"))
    as [ranked [_ [Hresp Hrows]]].
  - reflexivity.
  - reflexivity.
  - reflexivity.
  - reflexivity.
  - intros H. discriminate H.
  - exists ranked. split; [exact (Hresp services_answer) |].
    intros r Hin. destruct (Hrows r Hin) as [Hno _]. exact Hno.
Defined.

Lemma right_swipe_listed_in_matches_witness :
  exists entries : list (pyval Z),
    fst (get_matches g_up matches_request world_after_swipe)
    = inr (jsonify 200 (PyList entries))
    /\ In (PyDict [("item_id", PyStr "item-0"); ("item_title", PyStr "Toaster");
                   ("item_image_url",
                    PyStr "https://storage.example/items/a-toaster.jpg");
                   ("provider_name", PyStr "Asha");
                   ("provider_phone", PyStr "555-0100")])
         entries.
Proof.
  destruct (right_swipe_listed_in_matches Z Z g_up right_on_toaster
              matches_request world0 toaster (match_found "Asha" "555-0100" "uuid-0"))
    as [entries [_ [Hresp Hin]]].
  - reflexivity.
  - reflexivity.
  - reflexivity.
  - left. reflexivity.
  - reflexivity.
  - intros H. discriminate H.
  - reflexivity.
  - exists entries. split; [exact (Hresp services_answer) | exact Hin].
Defined.

Lemma list_item_upload_failure_witness :
  let out := @list_item Z Z storage_refuses g_up listing_request world0 in
  fst out =
    inr (jsonify 500
           (PyDict [("error", PyStr "GCS Upload Failed");
                    ("details", PyStr "403 bucket is read-only")]))
  /\ db (snd out) = db world0
  /\ bucket (snd out) = []
  /\ log (snd out) = [EvUpload (Some "loop") "items/uuid-0-kettle.jpg" [x00; x01]].
Proof.
  exact (@list_item_upload_failure Z Z storage_refuses g_up the_engine StorageHandle
           listing_request world0 {| filename := "kettle.jpg"; content := [x00; x01] |}
           (Exception "Forbidden" "403 bucket is read-only")
           eq_refl eq_refl eq_refl eq_refl).
Defined.

Lemma list_item_orphaned_blob_witness :
  let out := list_item g_up blank_listing_request world0 in
  fst out = inr (jsonify 500 (@error_report Z Z services "Operation Failed"
                                (Exception "ClientError" "empty image")))
  /\ bucket (snd out) = [("items/uuid-0-blank.jpg", [])]
  /\ db (snd out) = db world0.
Proof.
  cbv zeta.
  destruct (list_item_orphaned_blob Z Z g_up the_engine StorageHandle
              blank_listing_request world0 {| filename := "blank.jpg"; content := [] |}
              (jsonify 500 (@error_report Z Z services "Operation Failed"
                              (Exception "ClientError" "empty image"))))
    as [Hbucket [Hdb _]].
  - reflexivity.
  - reflexivity.
  - reflexivity.
  - reflexivity.
  - reflexivity.
  - intros H. discriminate H.
  - split; [reflexivity |]. split; [exact Hbucket | exact Hdb].
Defined.

Lemma listing_then_right_swipe_witness :
  (exists (url : string) (profile : pyval Z),
      kettle_response =
        jsonify 200
          (PyDict [("status", PyStr "success"); ("item_id", PyStr "item-3");
                   ("image_url", PyStr url); ("profile", profile)]))
  /\ fst (handle_swipe g_up right_on_kettle kettle_world)
     = inr (jsonify 200
              (PyDict [("is_match", PyBool true);
                       ("provider_name", PyStr "Dana");
                       ("provider_phone", PyStr "No Phone");
                       ("swiper_id", PyStr "uuid-2")])).
Proof.
  assert (Hrun : list_item g_up listing_request world0
                 = (inr kettle_response, kettle_world)) by reflexivity.
  destruct (listing_then_right_swipe Z Z g_up listing_request right_on_kettle
              world0 kettle_world kettle_response Hrun eq_refl)
    as [Hshape [_ Hswipe]].
  - intros H. discriminate H.
  - intros it [<- | [<- | [<- | []]]] H; discriminate H.
  - reflexivity.
  - reflexivity.
  - split; [exact Hshape | exact (Hswipe services_answer)].
Defined.

Lemma list_item_stores_image_witness :
  bucket (snd (list_item g_up listing_request world0))
  = [("items/uuid-0-kettle.jpg", [x00; x01])]
  /\ exists (id : string) (profile : pyval Z),
       kettle_response =
         jsonify 200
           (PyDict [("status", PyStr "success"); ("item_id", PyStr id);
                    ("image_url", PyStr kettle_url); ("profile", profile)]).
Proof.
  destruct (list_item_stores_image Z Z g_up the_engine StorageHandle listing_request
              world0 {| filename := "kettle.jpg"; content := [x00; x01] |})
    as [Hbucket Hresp].
  - reflexivity.
  - reflexivity.
  - reflexivity.
  - reflexivity.
  - split; [exact Hbucket |]. apply Hresp; reflexivity.
Defined.

Lemma other_swipes_keep_feed_and_search_witness :
  let after := snd (handle_swipe g_up left_on_toaster world0) in
  fst (get_items g_up (search_request "lamp") after)
  = fst (get_items g_up (search_request "lamp") world0)
  /\ fst (search g_up (search_request "lamp") after)
     = fst (search g_up (search_request "lamp") world0).
Proof.
  apply (other_swipes_keep_feed_and_search Z Z g_up left_on_toaster).
  intros H. discriminate H.
Defined.

End Demo.
